(** * pyextremes.plotting.return_values : a shallow embedding

    The plotting routine [plot_return_values] of pyextremes is a straight
    line of calls into pandas (table reads) and matplotlib (drawing on an
    axes object, creating a figure, overriding the rendering defaults).
    The embedding keeps that shape: a state-and-exception monad over a
    world that holds the matplotlib state, the data frames and the logger
    records, with one primitive per library call of the source. *)

From Stdlib Require Import ZArith String PrimFloat.
From stdpp Require Import gmap strings list.

Set Warnings "-inexact-float".
Local Open Scope string_scope.
Local Open Scope list_scope.

(** ** Python values *)

(** Object identities (figures, axes, data frames) are store addresses. *)
Abbreviation handle := nat.

(** A Python number: the source mixes [int] literals ([lw=2], [s=20],
    [dpi=96]) with [float] ones ([alpha=0.25], [8/1.618]). *)
Inductive num :=
| NInt (z : Z)
| NFloat (f : float).

Inductive exn :=
| KeyError (key : string)
| IndexError (pos size : nat)
| LibraryError (msg : string).

(** What a Python expression evaluates to: a value or a raised exception. *)
Inductive outcome (A : Type) :=
| Ok (a : A)
| Raise (e : exn).
Arguments Ok {A} a.
Arguments Raise {A} e.

#[global] Instance outcome_fmap : FMap outcome := λ A B f r,
  match r with
  | Ok a => Ok (f a)
  | Raise e => Raise e
  end.
#[global] Instance outcome_ret : MRet outcome := λ A a, Ok a.
#[global] Instance outcome_bind : MBind outcome := λ A B k r,
  match r with
  | Ok a => k a
  | Raise e => Raise e
  end.

(** ** pandas.DataFrame, as far as the plotter reads it *)

Module Pandas.

(** Columns are kept in order and may repeat a label, as in pandas. *)
Record DataFrame := mkDataFrame {
  index : list float;
  data : list (string * list float)
}.

#[global] Instance DataFrame_inhabited : Inhabited DataFrame :=
  populate (mkDataFrame [] []).

(** [df.columns] *)
Definition columns (df : DataFrame) : list string := (data df).*1.

(** [df.columns[i]] : IndexError past the end. *)
Definition columns_getitem (df : DataFrame) (i : nat) : outcome string :=
  match columns df !! i with
  | Some c => Ok c
  | None => Raise (IndexError i (length (columns df)))
  end.

(** The result of a label lookup: a Series for a label held by one column,
    a sub-frame when several columns carry the label. *)
Inductive selection :=
| Series (values : list float)
| Frame (cols : list (list float)).

(** [df.loc[:, key]] : KeyError when no column carries the label. *)
Definition loc (df : DataFrame) (key : string) : outcome selection :=
  match filter (λ c, c.1 = key) (data df) with
  | [] => Raise (KeyError key)
  | [c] => Ok (Series c.2)
  | cs => Ok (Frame cs.*2)
  end.

End Pandas.
Import Pandas.

(** ** matplotlib, as far as the plotter drives it *)

Module Mpl.

(** Values of rc parameters that occur in the style mapping. *)
Inductive rcval :=
| RStr (s : string)
| RNum (n : num)
| RBool (b : bool)
| RTuple (t : list num)
| RCycler (prop : string) (vals : list string).

Inductive formatter :=
| FormatStrFormatter (fmt : string).

(** The calls the plotter makes on an axes object, with the arguments it
    passes (positional data first, then the keywords of the source). *)
Inductive call :=
| Semilogx
| Grid (b : bool) (which : string)
| XaxisSetMajorFormatter (f : formatter)
| Plot (x : list float) (y : selection)
       (color : string) (lw : Z) (ls : string) (zorder : Z)
| FillBetween (x : list float) (y1 y2 : selection)
              (facecolor edgecolor : string) (alpha : float) (zorder : Z)
| Scatter (x y : selection) (marker : string) (s lw : Z)
          (facecolor edgecolor : string) (zorder : Z)
| SetXlabel (label : string)
| SetYlabel (label : string).

(** An executed axes call, together with the rendering defaults that were
    in force when it ran (matplotlib resolves every property the caller
    leaves out from [rcParams] at call time). *)
Record drawn := mkDrawn {
  cmd : call;
  style : gmap string rcval
}.

Record Figure := mkFigure {
  fig_figsize : num * num;
  fig_dpi : Z;
  fig_axes : handle;
  fig_style : gmap string rcval
}.

(** The library's state: the process-wide [rcParams], and the figures and
    axes that exist.  An axes object is the history of calls made on it. *)
Record state := mkState {
  rcParams : gmap string rcval;
  figures : gmap handle Figure;
  axes : gmap handle (list drawn)
}.

(** A call into the library that may raise. *)
Inductive libcall :=
| Subplots (figsize : num * num) (dpi : Z)
| AxesCall (ax : handle) (c : call).

(** The calls made so far on an axes object (none for one never used). *)
Definition history (s : state) (ax : handle) : list drawn := axes s !!! ax.

(** [ax.get_xlabel()] / [ax.get_ylabel()] : the label set last. *)
Fixpoint get_xlabel_from (cur : option string) (l : list drawn) : option string :=
  match l with
  | [] => cur
  | d :: l =>
      get_xlabel_from (match cmd d with SetXlabel s => Some s | _ => cur end) l
  end.

Fixpoint get_ylabel_from (cur : option string) (l : list drawn) : option string :=
  match l with
  | [] => cur
  | d :: l =>
      get_ylabel_from (match cmd d with SetYlabel s => Some s | _ => cur end) l
  end.

Definition get_xlabel (s : state) (ax : handle) : option string :=
  get_xlabel_from None (history s ax).
Definition get_ylabel (s : state) (ax : handle) : option string :=
  get_ylabel_from None (history s ax).

(** The stacking order an artist-producing call asks for. *)
Definition zorder_of (c : call) : option Z :=
  match c with
  | Plot _ _ _ _ _ z => Some z
  | FillBetween _ _ _ _ _ _ z => Some z
  | Scatter _ _ _ _ _ _ _ z => Some z
  | _ => None
  end.

End Mpl.
Import Mpl.

(** ** pyextremes.plotting.style *)

Definition theme_color : string := "#454545".

Definition pyextremes_rc : list (string * rcval) :=
  [ ("font.family", RStr "arial");
    ("font.size", RNum (NInt 10));
    ("text.color", RStr theme_color);
    ("axes.edgecolor", RStr theme_color);
    ("axes.linewidth", RNum (NFloat 0.8));
    ("axes.grid", RBool true);
    ("axes.labelsize", RNum (NInt 10));
    ("axes.labelweight", RStr "normal");
    ("axes.prop_cycle",
       RCycler "color" ["#1771F1"; "#F85C50"; "#35D073"; "#FFC11E"]);
    ("xtick.major.size", RNum (NInt 2));
    ("xtick.minor.size", RNum (NInt 1));
    ("xtick.major.width", RNum (NFloat 0.8));
    ("xtick.minor.width", RNum (NFloat 0.6));
    ("xtick.major.top", RBool true);
    ("xtick.major.bottom", RBool true);
    ("xtick.minor.top", RBool true);
    ("xtick.minor.bottom", RBool true);
    ("xtick.color", RStr theme_color);
    ("ytick.major.size", RNum (NInt 2));
    ("ytick.minor.size", RNum (NInt 1));
    ("ytick.major.width", RNum (NFloat 0.8));
    ("ytick.minor.width", RNum (NFloat 0.6));
    ("ytick.color", RStr theme_color);
    ("ytick.major.left", RBool true);
    ("ytick.major.right", RBool true);
    ("ytick.minor.left", RBool true);
    ("ytick.minor.right", RBool true);
    ("grid.color", RStr theme_color);
    ("grid.linestyle", RStr ":");
    ("grid.linewidth", RNum (NFloat 0.4));
    ("grid.alpha", RNum (NFloat 1.0));
    ("legend.frameon", RBool false);
    ("legend.edgecolor", RStr theme_color);
    ("figure.figsize", RTuple [NInt 8; NInt 5]);
    ("figure.dpi", RNum (NInt 96)) ].

(** ** The world and the monad of the embedding *)

Record world := mkWorld {
  mpl : Mpl.state;                   (* matplotlib's state *)
  frames : gmap handle DataFrame;    (* the data frames that exist *)
  records : list string              (* what the module logger received *)
}.

(** A Python computation: it ends with a value or a raised exception; the
    effects it had up to that point stay in the world either way. *)
Definition M (A : Type) : Type := world → outcome A * world.

#[global] Instance M_ret : MRet M := λ A a w, (Ok a, w).
#[global] Instance M_bind : MBind M := λ A B k m w,
  match m w with
  | (Ok a, w') => k a w'
  | (Raise e, w') => (Raise e, w')
  end.

(** An already evaluated expression. *)
Definition lift {A} (r : outcome A) : M A := λ w, (r, w).

(** [try: body finally: cleanup] : the cleanup runs on both exits and the
    outcome of the body is kept (unless the cleanup raises itself). *)
Definition try_finally {A} (body : M A) (cleanup : M unit) : M A := λ w,
  let '(r, w1) := body w in
  match cleanup w1 with
  | (Ok _, w2) => (r, w2)
  | (Raise e, w2) => (Raise e, w2)
  end.

(** [for x in xs: body] *)
Fixpoint for_each {A} (xs : list A) (body : A → M unit) : M unit :=
  match xs with
  | [] => mret tt
  | x :: xs => body x ;; for_each xs body
  end.

(** *** Updates of the world *)

(** A record reaches the logger. *)
Definition logged (msg : string) (w : world) : world :=
  mkWorld (mpl w) (frames w) (records w ++ [msg]).

(** The library's state changes. *)
Definition with_mpl (s : Mpl.state) (w : world) : world :=
  mkWorld s (frames w) (records w).

(** [rcParams] is replaced. *)
Definition set_rcParams (rc : gmap string rcval) (s : Mpl.state) : Mpl.state :=
  mkState rc (figures s) (axes s).

(** A figure with one axes is created, at unused addresses. *)
Definition new_figure (s : Mpl.state) : handle := fresh (dom (figures s)).
Definition new_axes (s : Mpl.state) : handle := fresh (dom (axes s)).

Definition subplots_on (figsize : num * num) (dpi : Z) (s : Mpl.state) : Mpl.state :=
  mkState (rcParams s)
    (<[new_figure s := mkFigure figsize dpi (new_axes s) (rcParams s)]> (figures s))
    (<[new_axes s := []]> (axes s)).

(** The call [c] is executed on the axes [ax]. *)
Definition drawn_on (ax : handle) (c : call) (s : Mpl.state) : Mpl.state :=
  mkState (rcParams s) (figures s)
    (<[ax := history s ax ++ [mkDrawn c (rcParams s)]]> (axes s)).

Definition with_drawn (ax : handle) (c : call) (w : world) : world :=
  with_mpl (drawn_on ax c (mpl w)) w.

Definition with_subplots (figsize : num * num) (dpi : Z) (w : world) : world :=
  with_mpl (subplots_on figsize dpi (mpl w)) w.

Definition with_rcParams (rc : gmap string rcval) (w : world) : world :=
  with_mpl (set_rcParams rc (mpl w)) w.

(** *** Reads of a data frame *)

(** The frame at the address [h] (a Python caller always passes a live
    object; an address that holds nothing reads as the empty frame). *)
Definition the_frame (h : handle) : M DataFrame := λ w, (Ok (frames w !!! h), w).

(** [df.index] *)
Definition df_index (h : handle) : M (list float) :=
  df ← the_frame h; mret (index df).

(** [df.loc[:, key]] *)
Definition df_loc (h : handle) (key : string) : M selection :=
  df ← the_frame h; lift (loc df key).

(** [df.columns[i]] *)
Definition df_columns_getitem (h : handle) (i : nat) : M string :=
  df ← the_frame h; lift (columns_getitem df i).

(** *** logging *)

(** [logger.info(msg)] *)
Definition logger_info (msg : string) : M unit := λ w, (Ok tt, logged msg w).

(** *** matplotlib.rcParams and matplotlib.rc_context *)

(** [rcParams[key] = val] : only the names matplotlib knows can be set, and
    [rcParams] holds every name it knows. *)
Definition rcParams_setitem (key : string) (val : rcval) : M unit := λ w,
  match rcParams (mpl w) !! key with
  | Some _ => (Ok tt, with_rcParams (<[key := val]> (rcParams (mpl w))) w)
  | None => (Raise (KeyError (key +:+ " is not a valid rc parameter")), w)
  end.

(** [rcParams.update(rc)] : one assignment per item, in the order of [rc]. *)
Fixpoint rcParams_update (rc : list (string * rcval)) : M unit :=
  match rc with
  | [] => mret tt
  | (key, val) :: rc => rcParams_setitem key val ;; rcParams_update rc
  end.

(** [rcParams.copy()] *)
Definition rcParams_copy : M (gmap string rcval) := λ w, (Ok (rcParams (mpl w)), w).

(** [dict.update(rcParams, orig)] : the items of [orig] overwrite, without
    validation; names that [orig] does not have are left as they are. *)
Definition dict_update_rcParams (orig : gmap string rcval) : M unit := λ w,
  (Ok tt, with_rcParams (orig ∪ rcParams (mpl w)) w).

(** [with matplotlib.rc_context(rc=rc): body], which matplotlib writes as
<<
    orig = rcParams.copy()
    try:
        rcParams.update(rc)
        yield
    finally:
        dict.update(rcParams, orig)
>> *)
Definition rc_context {A} (rc : list (string * rcval)) (body : M A) : M A :=
  orig ← rcParams_copy;
  try_finally (rcParams_update rc ;; body) (dict_update_rcParams orig).

Section Plotting.

(** Whether a call into matplotlib raises, given the library's state.  A
    call that raises leaves the state as it was. *)
Variable raises : Mpl.state → libcall → option exn.

(** [plt.subplots(figsize=figsize, dpi=dpi)] : a new figure holding one
    new axes. *)
Definition plt_subplots (figsize : num * num) (dpi : Z) : M (handle * handle) := λ w,
  match raises (mpl w) (Subplots figsize dpi) with
  | Some e => (Raise e, w)
  | None =>
      (Ok (new_figure (mpl w), new_axes (mpl w)), with_subplots figsize dpi w)
  end.

(** A method call on the axes object [ax]. *)
Definition ax_call (ax : handle) (c : call) : M unit := λ w,
  match raises (mpl w) (AxesCall ax c) with
  | Some e => (Raise e, w)
  | None => (Ok tt, with_drawn ax c w)
  end.

Definition ax_semilogx (ax : handle) : M unit := ax_call ax Semilogx.
Definition ax_grid (ax : handle) (b : bool) (which : string) : M unit :=
  ax_call ax (Grid b which).
Definition ax_xaxis_set_major_formatter (ax : handle) (f : formatter) : M unit :=
  ax_call ax (XaxisSetMajorFormatter f).
Definition ax_plot (ax : handle) (x : list float) (y : selection)
    (color : string) (lw : Z) (ls : string) (zorder : Z) : M unit :=
  ax_call ax (Plot x y color lw ls zorder).
Definition ax_fill_between (ax : handle) (x : list float) (y1 y2 : selection)
    (facecolor edgecolor : string) (alpha : float) (zorder : Z) : M unit :=
  ax_call ax (FillBetween x y1 y2 facecolor edgecolor alpha zorder).
Definition ax_scatter (ax : handle) (x y : selection) (marker : string) (s lw : Z)
    (facecolor edgecolor : string) (zorder : Z) : M unit :=
  ax_call ax (Scatter x y marker s lw facecolor edgecolor zorder).
Definition ax_set_xlabel (ax : handle) (label : string) : M unit :=
  ax_call ax (SetXlabel label).
Definition ax_set_ylabel (ax : handle) (label : string) : M unit :=
  ax_call ax (SetYlabel label).

(** ** pyextremes.plotting.return_values *)

(** The default of the [figsize] parameter: [(8, 8/1.618)]. *)
Definition figsize_default : num * num := (NInt 8, NFloat (8 / 1.618)%float).

Definition plot_return_values
    (observed_return_values modeled_return_values : handle)
    (ax : option handle) (figsize : num * num) : M (option handle * handle) :=
  rc_context pyextremes_rc (
    '(fig, ax) ← match ax with
                 | None =>
                     logger_info "creating new figure and axes";;
                     '(fig, ax) ← plt_subplots figsize 96;
                     mret (Some fig, ax)
                 | Some ax =>
                     logger_info "plotting to existing axes";;
                     mret (None, ax)
                 end;

    logger_info "configuring axes";;
    ax_semilogx ax;;
    ax_grid ax true "both";;
    ax_xaxis_set_major_formatter ax (FormatStrFormatter "%.0f");;

    logger_info "plotting return values";;
    x ← df_index modeled_return_values;
    y ← df_loc modeled_return_values "return value";
    ax_plot ax x y "#F85C50" 2 "-" 20;;

    logger_info "plotting confidence intervals";;
    for_each ["lower ci"; "upper ci"] (λ col,
      x ← df_index modeled_return_values;
      y ← df_loc modeled_return_values col;
      ax_plot ax x y "#5199FF" 1 "--" 15);;
    x ← df_index modeled_return_values;
    y1 ← df_loc modeled_return_values "lower ci";
    y2 ← df_loc modeled_return_values "upper ci";
    ax_fill_between ax x y1 y2 "#5199FF" "None" 0.25 10;;

    logger_info "plotting observed extreme values";;
    x ← df_loc observed_return_values "return period";
    c0 ← df_columns_getitem observed_return_values 0;
    y ← df_loc observed_return_values c0;
    ax_scatter ax x y "o" 20 1 "k" "w" 20;;

    logger_info "labeling axes";;
    ax_set_xlabel ax "Return period";;
    c0 ← df_columns_getitem observed_return_values 0;
    ax_set_ylabel ax c0;;

    mret (fig, ax)).

(** A call that leaves [figsize] out. *)
Definition plot_return_values_default_figsize
    (observed_return_values modeled_return_values : handle)
    (ax : option handle) : M (option handle * handle) :=
  plot_return_values observed_return_values modeled_return_values ax figsize_default.

End Plotting.

(** ** The draw sequence as data

    The body of [plot_return_values] after the surface is chosen is one
    fixed list of steps: a logger record, or an axes call whose arguments
    are table reads (the reads are evaluated before the call, left to
    right, and the first read that raises prevents the call).  Lemma
    [draw_then_script] shows that the statements of the source run as this
    list does. *)

Inductive step :=
| Log (msg : string)
| Do (c : outcome call).

Definition script (observed modeled : DataFrame) : list step :=
  [ Log "configuring axes";
    Do (Ok Semilogx);
    Do (Ok (Grid true "both"));
    Do (Ok (XaxisSetMajorFormatter (FormatStrFormatter "%.0f")));
    Log "plotting return values";
    Do (y ← loc modeled "return value";
        Ok (Plot (index modeled) y "#F85C50" 2 "-" 20));
    Log "plotting confidence intervals";
    Do (y ← loc modeled "lower ci";
        Ok (Plot (index modeled) y "#5199FF" 1 "--" 15));
    Do (y ← loc modeled "upper ci";
        Ok (Plot (index modeled) y "#5199FF" 1 "--" 15));
    Do (y1 ← loc modeled "lower ci";
        y2 ← loc modeled "upper ci";
        Ok (FillBetween (index modeled) y1 y2 "#5199FF" "None" 0.25 10));
    Log "plotting observed extreme values";
    Do (x ← loc observed "return period";
        c0 ← columns_getitem observed 0;
        y ← loc observed c0;
        Ok (Scatter x y "o" 20 1 "k" "w" 20));
    Log "labeling axes";
    Do (Ok (SetXlabel "Return period"));
    Do (c0 ← columns_getitem observed 0;
        Ok (SetYlabel c0)) ].

(** The axes calls of a list of steps, in order. *)
Definition calls_of (steps : list step) : list (outcome call) :=
  omap (λ s, match s with Do c => Some c | Log _ => None end) steps.

(** The nine draw steps of the plotter (the two bound curves count as two
    calls, which makes ten). *)
Definition draw_steps (observed modeled : DataFrame) : list (outcome call) :=
  calls_of (script observed modeled).

(** The rendering defaults after [rcParams.update(rc)] went through. *)
Definition styled (rc : list (string * rcval)) (orig : gmap string rcval)
    : gmap string rcval :=
  foldl (λ m kv, <[kv.1 := kv.2]> m) orig rc.

(** Every name of the style mapping is one matplotlib knows. *)
Definition rc_valid (rc : list (string * rcval)) (orig : gmap string rcval) : Prop :=
  Forall (λ kv, is_Some (orig !! kv.1)) rc.

Section Script.

Variable raises : Mpl.state → libcall → option exn.

(** Runs a list of steps on the axes [ax]. *)
Fixpoint run_script (ax : handle) (steps : list step) : M unit :=
  match steps with
  | [] => mret tt
  | Log msg :: steps => logger_info msg ;; run_script ax steps
  | Do oc :: steps => (c ← lift oc; ax_call raises ax c) ;; run_script ax steps
  end.

(** The surface the call draws on: the one passed in, or a new one. *)
Definition choose_surface (ax : option handle) (figsize : num * num)
    : M (option handle * handle) :=
  match ax with
  | None =>
      logger_info "creating new figure and axes";;
      '(fig, ax) ← plt_subplots raises figsize 96;
      mret (Some fig, ax)
  | Some ax =>
      logger_info "plotting to existing axes";;
      mret (None, ax)
  end.

(** The source's statements after the surface is chosen, followed by [k]. *)
Definition draw_then {A} (observed_return_values modeled_return_values : handle)
    (ax : handle) (k : M A) : M A :=
  logger_info "configuring axes";;
  ax_semilogx raises ax;;
  ax_grid raises ax true "both";;
  ax_xaxis_set_major_formatter raises ax (FormatStrFormatter "%.0f");;
  logger_info "plotting return values";;
  x ← df_index modeled_return_values;
  y ← df_loc modeled_return_values "return value";
  ax_plot raises ax x y "#F85C50" 2 "-" 20;;
  logger_info "plotting confidence intervals";;
  for_each ["lower ci"; "upper ci"] (λ col,
    x ← df_index modeled_return_values;
    y ← df_loc modeled_return_values col;
    ax_plot raises ax x y "#5199FF" 1 "--" 15);;
  x ← df_index modeled_return_values;
  y1 ← df_loc modeled_return_values "lower ci";
  y2 ← df_loc modeled_return_values "upper ci";
  ax_fill_between raises ax x y1 y2 "#5199FF" "None" 0.25 10;;
  logger_info "plotting observed extreme values";;
  x ← df_loc observed_return_values "return period";
  c0 ← df_columns_getitem observed_return_values 0;
  y ← df_loc observed_return_values c0;
  ax_scatter raises ax x y "o" 20 1 "k" "w" 20;;
  logger_info "labeling axes";;
  ax_set_xlabel raises ax "Return period";;
  c0 ← df_columns_getitem observed_return_values 0;
  ax_set_ylabel raises ax c0;;
  k.

(** The whole call, with the draw steps given as data. *)
Definition plot_script (ax : option handle) (figsize : num * num) (steps : list step)
    : M (option handle * handle) :=
  rc_context pyextremes_rc (
    '(fig, ax) ← choose_surface ax figsize;
    run_script ax steps;;
    mret (fig, ax)).

End Script.

(** The library's state after the calls [cs] ran on the axes [ax]. *)
Definition issue (ax : handle) (cs : list call) (s : Mpl.state) : Mpl.state :=
  foldl (λ s c, drawn_on ax c s) s cs.

(** Where and how a run of [steps] that raised [e] stopped: at call [k],
    either because a table read of that step raised [e], or because
    matplotlib raised [e] for the call, in the state [s] reached then. *)
Definition stopped_at (raises : Mpl.state → libcall → option exn)
    (ax : handle) (plan : list (outcome call)) (k : nat) (s : Mpl.state)
    (e : exn) : Prop :=
  plan !! k = Some (Raise e) ∨
  ∃ c, plan !! k = Some (Ok c) ∧ raises s (AxesCall ax c) = Some e.

(** Matplotlib executed each of the calls [cs] on [ax], one after the other
    from the state [s], without raising. *)
Fixpoint accepted (raises : Mpl.state → libcall → option exn)
    (ax : handle) (cs : list call) (s : Mpl.state) : Prop :=
  match cs with
  | [] => True
  | c :: cs => raises s (AxesCall ax c) = None ∧ accepted raises ax cs (drawn_on ax c s)
  end.

(** The message of the KeyError for a name that matplotlib does not know. *)
Definition not_an_rc_parameter (key : string) : exn :=
  KeyError (key +:+ " is not a valid rc parameter").

(** The library's state while the body of the [with] block runs. *)
Definition during (s : Mpl.state) : Mpl.state :=
  set_rcParams (styled pyextremes_rc (rcParams s)) s.

(** The surface a call draws on: [surface_chosen raises figsize s ax fig a s']
    when, in the state [s], the argument [ax] leads to the figure handle
    [fig] (absent for a surface passed in), the axes [a] and the state [s']. *)
Inductive surface_chosen (raises : Mpl.state → libcall → option exn)
    (figsize : num * num) (s : Mpl.state)
    : option handle → option handle → handle → Mpl.state → Prop :=
| surface_existing a :
    surface_chosen raises figsize s (Some a) None a s
| surface_created :
    raises s (Subplots figsize 96) = None →
    surface_chosen raises figsize s None
      (Some (new_figure s)) (new_axes s) (subplots_on figsize 96 s).

(** The runs of [plot_return_values]: from the library state [s0], with the
    draw steps [plan] that the two tables give, a call ends with the outcome
    [r] in the library state [s']. *)
Inductive plot_run (raises : Mpl.state → libcall → option exn)
    (plan : list (outcome call)) (ax : option handle) (figsize : num * num)
    (s0 : Mpl.state) : outcome (option handle * handle) → Mpl.state → Prop :=
| run_style_rejected key :
    key ∈ pyextremes_rc.*1 →
    rcParams s0 !! key = None →
    plot_run raises plan ax figsize s0 (Raise (not_an_rc_parameter key)) s0
| run_no_surface e :
    rc_valid pyextremes_rc (rcParams s0) →
    ax = None →
    raises (during s0) (Subplots figsize 96) = Some e →
    plot_run raises plan ax figsize s0 (Raise e) s0
| run_stopped fig a s1 k cs e :
    rc_valid pyextremes_rc (rcParams s0) →
    surface_chosen raises figsize (during s0) ax fig a s1 →
    Ok <$> cs = take k plan →
    accepted raises a cs s1 →
    k < length plan →
    stopped_at raises a plan k (issue a cs s1) e →
    plot_run raises plan ax figsize s0 (Raise e)
      (set_rcParams (rcParams s0) (issue a cs s1))
| run_completed fig a s1 cs :
    rc_valid pyextremes_rc (rcParams s0) →
    surface_chosen raises figsize (during s0) ax fig a s1 →
    Ok <$> cs = plan →
    accepted raises a cs s1 →
    plot_run raises plan ax figsize s0 (Ok (fig, a))
      (set_rcParams (rcParams s0) (issue a cs s1)).

(** ** Notions used by the statements *)

(** A matplotlib that accepts every call. *)
Definition never_raises : Mpl.state → libcall → option exn := λ _ _, None.

(** [key in df.columns] *)
Definition has_column (df : DataFrame) (key : string) : Prop := key ∈ columns df.

#[global] Instance has_column_dec df key : Decision (has_column df key).
Proof. unfold has_column. apply _. Defined.

(** A valid pair of tables: the columns that the docstring of
    [plot_return_values] asks for are there. *)
Definition tables_valid (observed modeled : DataFrame) : Prop :=
  has_column observed "return period" ∧
  has_column modeled "return value" ∧
  has_column modeled "lower ci" ∧
  has_column modeled "upper ci".

(** The first required column that is missing, in the order in which the
    draw steps read the tables, with the number of the step that reads it. *)
Definition first_missing (observed modeled : DataFrame) : option (nat * string) :=
  if decide (has_column modeled "return value") then
    if decide (has_column modeled "lower ci") then
      if decide (has_column modeled "upper ci") then
        if decide (has_column observed "return period") then None
        else Some (7, "return period")
      else Some (5, "upper ci")
    else Some (4, "lower ci")
  else Some (3, "return value").

(** The calls that a call of the plotter added to the axes [ax]: what the
    history of [ax] holds after the call beyond what it held before. *)
Definition added (before after : Mpl.state) (ax : handle) : list drawn :=
  drop (length (history before ax)) (history after ax).

Section Reinvoke.

Variable raises : Mpl.state → libcall → option exn.

(** [n] calls in a row on the same existing axes; the results in order. *)
Fixpoint reinvoke (n : nat) (observed modeled ax : handle) (figsize : num * num)
    : M (list (option handle * handle)) :=
  match n with
  | 0 => mret []
  | S n =>
      r ← plot_return_values raises observed modeled (Some ax) figsize;
      rs ← reinvoke n observed modeled ax figsize;
      mret (r :: rs)
  end.

End Reinvoke.

(** The first failing read of a plan, with the number of its step. *)
Fixpoint first_raise (plan : list (outcome call)) : option (nat * exn) :=
  match plan with
  | [] => None
  | Raise e :: _ => Some (0, e)
  | Ok _ :: plan => prod_map S id <$> first_raise plan
  end.

(** The claim that a failing call left every surface that did not exist
    before the call without any executed call. *)
Definition fails_before_drawing {A} (before : Mpl.state) (r : outcome A * world) : Prop :=
  (∃ e, r.1 = Raise e) ∧
  ∀ a, a ∉ dom (axes before) → history (mpl r.2) a = [].

(** The layers of the chart: the filled band, the dashed bound curves, and
    on top the solid central curve and the markers of the observed points. *)
Inductive layer :=
| Band
| Bounds
| Top.

Definition layer_of (c : call) : option layer :=
  match c with
  | FillBetween _ _ _ _ _ _ _ => Some Band
  | Plot _ _ _ _ ls _ =>
      if decide (ls = "--") then Some Bounds
      else if decide (ls = "-") then Some Top
      else None
  | Scatter _ _ _ _ _ _ _ _ => Some Top
  | _ => None
  end.

(** The stacking order that each layer is drawn with. *)
Definition layer_zorder (l : layer) : Z :=
  match l with
  | Band => 10
  | Bounds => 15
  | Top => 20
  end.

(** [c1] is drawn strictly beneath [c2]. *)
Definition beneath (c1 c2 : call) : Prop :=
  ∃ z1 z2, zorder_of c1 = Some z1 ∧ zorder_of c2 = Some z2 ∧ (z1 < z2)%Z.

(** The parts of the tables that the plotter reads. *)
Definition modeled_view (df : DataFrame)
    : list float * outcome selection * outcome selection * outcome selection :=
  (index df, loc df "return value", loc df "lower ci", loc df "upper ci").

Definition observed_view (df : DataFrame)
    : outcome selection * outcome string * outcome selection :=
  (loc df "return period",
   columns_getitem df 0,
   c0 ← columns_getitem df 0; loc df c0).

(** A table with one more column, after the ones it has. *)
Definition with_column (df : DataFrame) (label : string) (values : list float)
    : DataFrame :=
  mkDataFrame (index df) (data df ++ [(label, values)]).

(** A computation that does not look at the data frames: from two worlds
    with the same library state it gives the same outcome and the same
    library state. *)
Definition blind {A} (c : M A) : Prop :=
  ∀ w1 w2, mpl w1 = mpl w2 →
    (c w1).1 = (c w2).1 ∧ mpl (c w1).2 = mpl (c w2).2.

(** ** Sample inputs *)

(** Rendering defaults in which matplotlib knows every name of the style
    mapping (and its backend). *)
Definition rc_stock : gmap string rcval :=
  list_to_map
    (("backend", RStr "agg") ::
     ((λ kv : string * rcval, (kv.1, RStr "stock")) <$> pyextremes_rc)).

(** The scenario of the specification: three observed extremes. *)
Definition observed_sample : DataFrame :=
  mkDataFrame [0; 1; 2]%float
    [ ("water level", [1.1; 1.8; 2.3]%float);
      ("return period", [2; 5; 10]%float) ].

Definition modeled_sample : DataFrame :=
  mkDataFrame [1; 10; 100]%float
    [ ("return value", [1.0; 2.0; 3.0]%float);
      ("lower ci", [0.8; 1.8; 2.8]%float);
      ("upper ci", [1.2; 2.2; 3.2]%float) ].

(** An observed table without its "return period" column. *)
Definition observed_no_period : DataFrame :=
  mkDataFrame [0; 1; 2]%float [ ("water level", [1.1; 1.8; 2.3]%float) ].

(** A world with no figure yet: the observed table at address 0, the
    modeled one at 1, the observed table without return periods at 2. *)
Definition world_sample : world :=
  mkWorld (mkState rc_stock ∅ ∅)
    (<[0 := observed_sample]> (<[1 := modeled_sample]> (<[2 := observed_no_period]> ∅)))
    [].

(** A matplotlib whose [grid] call fails. *)
Definition raises_on_grid : Mpl.state → libcall → option exn := λ _ c,
  match c with
  | AxesCall _ (Grid _ _) => Some (LibraryError "grid")
  | _ => None
  end.

(** A world in which matplotlib does not know the name "font.family". *)
Definition world_old_matplotlib : world :=
  mkWorld (mkState (delete "font.family" rc_stock) ∅ (<[3 := []]> ∅))
    (frames world_sample) [].

(** The same tables with one more column each, stored elsewhere. *)
Definition world_extra : world :=
  mkWorld (mkState rc_stock ∅ ∅)
    (<[5 := with_column observed_sample "station" [7; 7; 7]%float]>
       (<[6 := with_column modeled_sample "median" [1.1; 2.1; 3.1]%float]> ∅))
    ["an earlier record"].

(** ** Notions used by the further properties *)

(** The records that a call sends to the module logger, in the order of
    its [logger.info] statements; the first one tells which surface the call
    draws on. *)
Definition progress_messages (ax : option handle) : list string :=
  [ match ax with
    | None => "creating new figure and axes"
    | Some _ => "plotting to existing axes"
    end;
    "configuring axes";
    "plotting return values";
    "plotting confidence intervals";
    "plotting observed extreme values";
    "labeling axes" ].

(** The logger records of a list of steps, in order. *)
Definition logs_of (steps : list step) : list string :=
  omap (λ s, match s with Log msg => Some msg | Do _ => None end) steps.

(** The sample world after the caller set two options of the style mapping
    to values of their own. *)
Definition world_own_options : world :=
  mkWorld
    (mkState (<["font.family" := RStr "serif"]> (<["grid.linestyle" := RStr "-"]> rc_stock))
       ∅ ∅)
    (frames world_sample) [].

(** The sample world with two axes that exist already, one of them drawn
    on. *)
Definition world_two_axes : world :=
  mkWorld
    (mkState rc_stock ∅
       (<[3 := [mkDrawn (SetYlabel "old label") rc_stock]]> (<[4 := []]> ∅)))
    (frames world_sample) [].

(** An observed table whose first column is the "return period" column. *)
Definition observed_periods_first : DataFrame :=
  mkDataFrame [0; 1; 2]%float
    [ ("return period", [2; 5; 10]%float);
      ("water level", [1.1; 1.8; 2.3]%float) ].

Definition world_periods_first : world :=
  mkWorld (mkState rc_stock ∅ ∅)
    (<[0 := observed_periods_first]> (<[1 := modeled_sample]> ∅)) [].

(** * Facts about the embedding *)

(** ** Evaluation of one statement *)

Lemma bind_bind {A B C} (m : M A) (f : A → M B) (g : B → M C) w :
  ((m ≫= f) ≫= g) w = (m ≫= λ a, f a ≫= g) w.
Proof. unfold mbind, M_bind. destruct (m w) as [[a|e] w']; reflexivity. Qed.

Lemma bind_ret {A B} (a : A) (k : A → M B) w : (mret a ≫= k) w = k a w.
Proof. reflexivity. Qed.

Lemma bind_logger_info {A} msg (k : unit → M A) w :
  (logger_info msg ≫= k) w = k tt (logged msg w).
Proof. reflexivity. Qed.

Lemma bind_df_index {A} h (k : list float → M A) w :
  (df_index h ≫= k) w = k (index (frames w !!! h)) w.
Proof. reflexivity. Qed.

Lemma bind_df_loc {A} h key (k : selection → M A) w :
  (df_loc h key ≫= k) w =
  match loc (frames w !!! h) key with
  | Ok s => k s w
  | Raise e => (Raise e, w)
  end.
Proof.
  unfold df_loc, the_frame, lift, mbind, M_bind.
  destruct (loc (frames w !!! h) key); reflexivity.
Qed.

Lemma bind_df_columns_getitem {A} h i (k : string → M A) w :
  (df_columns_getitem h i ≫= k) w =
  match columns_getitem (frames w !!! h) i with
  | Ok c => k c w
  | Raise e => (Raise e, w)
  end.
Proof.
  unfold df_columns_getitem, the_frame, lift, mbind, M_bind.
  destruct (columns_getitem (frames w !!! h) i); reflexivity.
Qed.

Lemma frames_logged msg w : frames (logged msg w) = frames w.
Proof. reflexivity. Qed.

Lemma frames_with_drawn ax c w : frames (with_drawn ax c w) = frames w.
Proof. reflexivity. Qed.

(** ** The rendering defaults *)

Lemma restore_defaults (orig cur : gmap string rcval) :
  dom cur = dom orig → orig ∪ cur = orig.
Proof.
  intros Hdom. apply map_eq. intros key. rewrite lookup_union.
  destruct (orig !! key) as [v|] eqn:Ho; [by destruct (cur !! key)|].
  apply not_elem_of_dom in Ho. rewrite <- Hdom in Ho.
  apply not_elem_of_dom in Ho. by rewrite Ho.
Qed.

Lemma rc_valid_insert rc key val (orig : gmap string rcval) :
  is_Some (orig !! key) → rc_valid rc (<[key := val]> orig) → rc_valid rc orig.
Proof.
  intros Hkey Hvalid. eapply Forall_impl; [exact Hvalid|]. intros [k v]. cbn.
  rewrite lookup_insert_is_Some. intros [<-|[_ ?]]; done.
Qed.

Lemma rc_valid_insert_2 rc key val (orig : gmap string rcval) :
  rc_valid rc orig → rc_valid rc (<[key := val]> orig).
Proof.
  intros Hvalid. eapply Forall_impl; [exact Hvalid|]. intros [k v]. cbn.
  rewrite lookup_insert_is_Some. destruct (decide (key = k)); auto.
Qed.

(** [rcParams.update(rc)] either sets every item of [rc], or stops at a name
    that matplotlib does not know; it never adds or removes a name, and it
    touches nothing but [rcParams]. *)
Lemma rcParams_update_spec rc w :
  ∃ cur,
    (rcParams_update rc w).2 = with_rcParams cur w ∧
    dom cur = dom (rcParams (mpl w)) ∧
    match (rcParams_update rc w).1 with
    | Ok _ => rc_valid rc (rcParams (mpl w)) ∧ cur = styled rc (rcParams (mpl w))
    | Raise e =>
        ∃ key, e = not_an_rc_parameter key ∧ key ∈ rc.*1 ∧
               rcParams (mpl w) !! key = None
    end.
Proof.
  revert w. induction rc as [|[key val] rc IH]; intros w.
  - exists (rcParams (mpl w)). cbn. split; [by destruct w as [[]]|].
    split; [done|]. split; [constructor|done].
  - cbn [rcParams_update]. unfold mbind, M_bind, rcParams_setitem.
    destruct (rcParams (mpl w) !! key) as [old|] eqn:Hkey.
    + destruct (IH (with_rcParams (<[key:=val]> (rcParams (mpl w))) w))
        as (cur & Hw & Hdom & Hr).
      exists cur. split; [by rewrite Hw|]. cbn in Hdom. split.
      { rewrite Hdom. apply dom_insert_lookup_L. by rewrite Hkey. }
      revert Hr. cbn.
      destruct (rcParams_update rc _).1 as [[]|e].
      * intros [Hvalid ->]. split; [|done]. apply Forall_cons. split; [by eexists|].
        eapply rc_valid_insert; [|done]. by eexists.
      * intros (key' & -> & Hin & Hnone). exists key'. split; [done|].
        split; [by right|]. apply lookup_insert_None in Hnone. tauto.
    + exists (rcParams (mpl w)). cbn. split; [by destruct w as [[]]|].
      split; [done|]. exists key. split; [done|]. split; [by left|done].
Qed.

Lemma styled_valid_dom rc (orig : gmap string rcval) :
  rc_valid rc orig → dom (styled rc orig) = dom orig.
Proof.
  revert orig. induction rc as [|[key val] rc IH]; intros orig Hvalid; [done|].
  apply Forall_cons in Hvalid as [Hkey Hvalid].
  change (styled ((key, val) :: rc) orig) with (styled rc (<[key:=val]> orig)).
  rewrite IH; [by apply dom_insert_lookup_L|by apply rc_valid_insert_2].
Qed.

(** With the names of [rc] all different, the styled defaults hold exactly
    the items of [rc], and the original value under every other name. *)
Lemma styled_lookup rc (orig : gmap string rcval) key :
  NoDup rc.*1 →
  styled rc orig !! key =
  match list_to_map (M := gmap string rcval) rc !! key with
  | Some val => Some val
  | None => orig !! key
  end.
Proof.
  revert orig. induction rc as [|[k v] rc IH]; intros orig Hnd; [done|].
  apply NoDup_cons in Hnd as [Hk Hnd].
  change (styled ((k, v) :: rc) orig) with (styled rc (<[k:=v]> orig)).
  rewrite IH by done. cbn [list_to_map foldr uncurry].
  destruct (decide (k = key)) as [->|Hne].
  - rewrite lookup_insert_eq.
    by rewrite (not_elem_of_list_to_map_1 rc key Hk), lookup_insert_eq.
  - by rewrite !(lookup_insert_ne _ k key) by done.
Qed.

Lemma mpl_with_rcParams rc w : mpl (with_rcParams rc w) = set_rcParams rc (mpl w).
Proof. reflexivity. Qed.

Lemma rcParams_set_rcParams rc s : rcParams (set_rcParams rc s) = rc.
Proof. reflexivity. Qed.

Lemma set_rcParams_twice rc rc' s :
  set_rcParams rc (set_rcParams rc' s) = set_rcParams rc s.
Proof. reflexivity. Qed.

Lemma set_rcParams_same s : set_rcParams (rcParams s) s = s.
Proof. by destruct s. Qed.

Ltac case_scrutinee :=
  match goal with
  | H : ?x = _ |- match ?x with _ => _ end = _ => rewrite H
  | |- match ?x with _ => _ end = _ => destruct x eqn:?
  end.

Ltac same_frames :=
  repeat first [rewrite frames_with_drawn | rewrite frames_logged].

Section Facts.

Variable raises : Mpl.state → libcall → option exn.

Lemma bind_ax_call {A} ax c (k : unit → M A) w :
  (ax_call raises ax c ≫= k) w =
  match raises (mpl w) (AxesCall ax c) with
  | Some e => (Raise e, w)
  | None => k tt (with_drawn ax c w)
  end.
Proof.
  unfold ax_call, mbind, M_bind.
  destruct (raises (mpl w) (AxesCall ax c)); reflexivity.
Qed.

Lemma bind_plt_subplots {A} figsize dpi (k : handle * handle → M A) w :
  (plt_subplots raises figsize dpi ≫= k) w =
  match raises (mpl w) (Subplots figsize dpi) with
  | Some e => (Raise e, w)
  | None => k (new_figure (mpl w), new_axes (mpl w)) (with_subplots figsize dpi w)
  end.
Proof.
  unfold plt_subplots, mbind, M_bind.
  destruct (raises (mpl w) (Subplots figsize dpi)); reflexivity.
Qed.

Lemma run_script_nil {A} ax (k : unit → M A) w :
  (run_script raises ax [] ≫= k) w = k tt w.
Proof. reflexivity. Qed.

Lemma run_script_log {A} ax msg steps (k : unit → M A) w :
  (run_script raises ax (Log msg :: steps) ≫= k) w =
  (run_script raises ax steps ≫= k) (logged msg w).
Proof. reflexivity. Qed.

Lemma run_script_do {A} ax oc steps (k : unit → M A) w :
  (run_script raises ax (Do oc :: steps) ≫= k) w =
  match oc with
  | Raise e => (Raise e, w)
  | Ok c =>
      match raises (mpl w) (AxesCall ax c) with
      | Some e => (Raise e, w)
      | None => (run_script raises ax steps ≫= k) (with_drawn ax c w)
      end
  end.
Proof.
  cbn [run_script]. rewrite bind_bind. destruct oc as [c|e]; [|reflexivity].
  unfold lift. cbn [mbind M_bind]. 
  change ((ax_call raises ax c ≫= λ _, run_script raises ax steps ≫= k) w = 
          match raises (mpl w) (AxesCall ax c) with
      | Some e => (Raise e, w)
      | None => (run_script raises ax steps ≫= k) (with_drawn ax c w)
      end).
  apply bind_ax_call.
Qed.

Lemma run_script_do_ok ax c steps w :
  run_script raises ax (Do (Ok c) :: steps) w =
  match raises (mpl w) (AxesCall ax c) with
  | Some e => (Raise e, w)
  | None => run_script raises ax steps (with_drawn ax c w)
  end.
Proof.
  cbn [run_script]. unfold mbind, M_bind, lift, ax_call.
  destruct (raises (mpl w) (AxesCall ax c)); reflexivity.
Qed.

(** A list of steps runs until the first step that raises; the calls of
    the steps before it have been executed, in order. *)
Lemma run_script_spec ax steps w :
  ∃ k cs,
    Ok <$> cs = take k (calls_of steps) ∧
    accepted raises ax cs (mpl w) ∧
    mpl (run_script raises ax steps w).2 = issue ax cs (mpl w) ∧
    frames (run_script raises ax steps w).2 = frames w ∧
    match (run_script raises ax steps w).1 with
    | Ok _ => k = length (calls_of steps)
    | Raise e =>
        k < length (calls_of steps) ∧
        stopped_at raises ax (calls_of steps) k (issue ax cs (mpl w)) e
    end.
Proof.
  revert w. induction steps as [|[msg|[c|e]] steps IH]; intros w.
  - exists 0, []. done.
  - destruct (IH (logged msg w)) as (k & cs & Hcs & Hacc & Hmpl & Hfr & Hr).
    exists k, cs. done.
  - rewrite run_script_do_ok.
    destruct (raises (mpl w) (AxesCall ax c)) as [e|] eqn:Hc.
    + exists 0, []. cbn. repeat split; [lia|]. right. by exists c.
    + destruct (IH (with_drawn ax c w)) as (k & cs & Hcs & Hacc & Hmpl & Hfr & Hr).
      exists (S k), (c :: cs). cbn. rewrite Hcs. repeat split; [done..|].
      revert Hr.
      destruct (run_script raises ax steps (with_drawn ax c w)).1; [by intros ->|].
      intros [Hk Hstop]. split; [|exact Hstop].
      exact (proj1 (Nat.succ_lt_mono _ _) Hk).
  - exists 0, []. cbn. repeat split; [lia|]. by left.
Qed.

Lemma plot_return_values_unfold o m ax figsize :
  plot_return_values raises o m ax figsize =
  rc_context pyextremes_rc (
    '(fig, ax) ← choose_surface raises ax figsize;
    draw_then raises o m ax (mret (fig, ax))).
Proof. reflexivity. Qed.

Lemma draw_then_script {A} o m ax (k : M A) w :
  draw_then raises o m ax k w =
  (run_script raises ax (script (frames w !!! o) (frames w !!! m)) ;; k) w.
Proof.
  unfold draw_then, script, ax_semilogx, ax_grid, ax_xaxis_set_major_formatter,
    ax_plot, ax_fill_between, ax_scatter, ax_set_xlabel, ax_set_ylabel.
  cbn [for_each].
  repeat (progress (
    rewrite ?bind_bind, ?bind_ret, ?bind_logger_info, ?bind_df_index,
      ?run_script_log, ?run_script_nil;
    try (rewrite bind_df_loc; same_frames; case_scrutinee;
         cbn [mbind outcome_bind mret outcome_ret]);
    try (rewrite bind_df_columns_getitem; same_frames; case_scrutinee;
         cbn [mbind outcome_bind mret outcome_ret]);
    try (rewrite bind_ax_call, run_script_do;
         cbn [mbind outcome_bind mret outcome_ret]; case_scrutinee);
    try (rewrite run_script_do; cbn [mbind outcome_bind mret outcome_ret];
         reflexivity);
    try reflexivity)).
Qed.

(** ** The runs of the whole call *)

Lemma rc_context_run {A} rc (body : M A) w :
  rc_context rc body w =
  match rcParams_update rc w with
  | (Ok _, w1) =>
      let '(r, w2) := body w1 in
      (r, with_rcParams (rcParams (mpl w) ∪ rcParams (mpl w2)) w2)
  | (Raise e, w1) =>
      (Raise e, with_rcParams (rcParams (mpl w) ∪ rcParams (mpl w1)) w1)
  end.
Proof.
  unfold rc_context, rcParams_copy, try_finally, dict_update_rcParams, mbind, M_bind.
  destruct (rcParams_update rc w) as [[[]|e] w1]; [|reflexivity].
  destruct (body w1) as [r w2]. reflexivity.
Qed.

Lemma issue_cons ax c cs s : issue ax (c :: cs) s = issue ax cs (drawn_on ax c s).
Proof. reflexivity. Qed.

Lemma rcParams_issue ax cs s : rcParams (issue ax cs s) = rcParams s.
Proof.
  revert s. induction cs as [|c cs IH]; intros s; [done|]. by rewrite issue_cons, IH.
Qed.

Lemma figures_issue ax cs s : figures (issue ax cs s) = figures s.
Proof.
  revert s. induction cs as [|c cs IH]; intros s; [done|]. by rewrite issue_cons, IH.
Qed.

Lemma run_script_then {A} ax steps (v : A) w :
  (run_script raises ax steps ;; mret v) w =
  ((λ _, v) <$> (run_script raises ax steps w).1, (run_script raises ax steps w).2).
Proof.
  unfold mbind, M_bind. by destruct (run_script raises ax steps w) as [[[]|e] w'].
Qed.

(** The body of the [with] block: the surface is chosen, then the draw
    steps run on it until one raises. *)
Lemma body_spec o m ax figsize w :
  let r := ('(fig, a) ← choose_surface raises ax figsize;
            draw_then raises o m a (mret (fig, a))) w in
  let plan := draw_steps (frames w !!! o) (frames w !!! m) in
  frames r.2 = frames w ∧
  ((∃ e, ax = None ∧ raises (mpl w) (Subplots figsize 96) = Some e ∧
         r.1 = Raise e ∧ mpl r.2 = mpl w)
   ∨ ∃ fig a s1 k cs,
       surface_chosen raises figsize (mpl w) ax fig a s1 ∧
       Ok <$> cs = take k plan ∧
       accepted raises a cs s1 ∧
       mpl r.2 = issue a cs s1 ∧
       match r.1 with
       | Ok v => v = (fig, a) ∧ k = length plan
       | Raise e => k < length plan ∧ stopped_at raises a plan k (issue a cs s1) e
       end).
Proof.
  intros r plan. subst r. destruct ax as [a|]; unfold choose_surface.
  - rewrite bind_bind, bind_logger_info, bind_ret, draw_then_script, run_script_then.
    rewrite frames_logged. fold plan.
    destruct (run_script_spec a (script (frames w !!! o) (frames w !!! m))
                (logged "plotting to existing axes" w))
      as (k & cs & Hcs & Hacc & Hmpl & Hfr & Hr).
    cbn [fst snd]. split; [done|]. right. exists None, a, (mpl w), k, cs.
    split; [constructor|]. repeat split; [done..|].
    revert Hr. by destruct (run_script _ _ _ _).1.
  - rewrite bind_bind, bind_logger_info, bind_bind, bind_plt_subplots.
    change (mpl (logged "creating new figure and axes" w)) with (mpl w).
    destruct (raises (mpl w) (Subplots figsize 96)) as [e|] eqn:Hsub.
    { split; [done|]. left. by exists e. }
    rewrite bind_ret, draw_then_script, run_script_then.
    destruct (run_script_spec (new_axes (mpl w))
                (script (frames w !!! o) (frames w !!! m))
                (with_subplots figsize 96 (logged "creating new figure and axes" w)))
      as (k & cs & Hcs & Hacc & Hmpl & Hfr & Hr).
    cbn [fst snd]. split; [done|]. right.
    exists (Some (new_figure (mpl w))), (new_axes (mpl w)),
      (subplots_on figsize 96 (mpl w)), k, cs.
    split; [by constructor|]. repeat split; [done..|].
    revert Hr. by destruct (run_script _ _ _ _).1.
Qed.

(** Every call of [plot_return_values] is one of the runs of [plot_run];
    no other behaviour exists. *)
Lemma plot_return_values_runs o m ax figsize w :
  plot_run raises (draw_steps (frames w !!! o) (frames w !!! m)) ax figsize (mpl w)
    (plot_return_values raises o m ax figsize w).1
    (mpl (plot_return_values raises o m ax figsize w).2) ∧
  frames (plot_return_values raises o m ax figsize w).2 = frames w.
Proof.
  rewrite plot_return_values_unfold, rc_context_run.
  destruct (rcParams_update_spec pyextremes_rc w) as (cur & Hw1 & Hdom & Hr1).
  destruct (rcParams_update pyextremes_rc w) as [r1 w1]. cbn [fst snd] in *. subst w1.
  destruct r1 as [[]|e1].
  - destruct Hr1 as [Hvalid ->].
    pose proof (body_spec o m ax figsize
                  (with_rcParams (styled pyextremes_rc (rcParams (mpl w))) w)) as Hbody.
    cbn zeta in Hbody.
    match type of Hbody with
    | frames (?b).2 = _ ∧ _ => destruct b as [r w2]
    end.
    cbn [fst snd] in *.
    destruct Hbody as [Hfr Hbody]. split; [|done].
    change (mpl (with_rcParams (styled pyextremes_rc (rcParams (mpl w))) w))
      with (during (mpl w)) in Hbody.
    change (frames (with_rcParams (styled pyextremes_rc (rcParams (mpl w))) w))
      with (frames w) in Hbody.
    destruct Hbody as [(e & -> & Hsub & -> & Hmpl)
                      |(fig & a & s1 & k & cs & Hsurf & Hcs & Hacc & Hmpl & Hr)].
    + rewrite mpl_with_rcParams, Hmpl. unfold during at 1 2.
      rewrite rcParams_set_rcParams, restore_defaults by done.
      rewrite set_rcParams_twice, set_rcParams_same.
      by apply run_no_surface.
    + assert (rcParams s1 = styled pyextremes_rc (rcParams (mpl w))) as Hrc
        by (by destruct Hsurf).
      assert (mpl (with_rcParams (rcParams (mpl w) ∪ rcParams (mpl w2)) w2) =
              set_rcParams (rcParams (mpl w)) (issue a cs s1)) as ->.
      { rewrite mpl_with_rcParams, Hmpl, rcParams_issue, Hrc, restore_defaults; [done|].
        by apply styled_valid_dom. }
      destruct r as [v|e].
      * destruct Hr as [-> ->]. rewrite firstn_all in Hcs.
        by eapply run_completed.
      * destruct Hr as [Hk Hstop]. by eapply run_stopped.
  - destruct Hr1 as (key & -> & Hin & Hnone). split; [|done].
    rewrite !mpl_with_rcParams, rcParams_set_rcParams, restore_defaults by done.
    cbn [fst snd].
    rewrite !mpl_with_rcParams, set_rcParams_twice, set_rcParams_same.
    by apply run_style_rejected.
Qed.

(** ** Table reads *)

Lemma loc_has_column df key : has_column df key → ∃ sel, loc df key = Ok sel.
Proof.
  unfold has_column, columns, loc. intros Hin.
  apply list_elem_of_fmap in Hin as ([k v] & -> & Hin).
  assert ((k, v) ∈ filter (λ c : string * list float, c.1 = k) (data df)) as Hf
    by (by apply list_elem_of_filter).
  destruct (filter _ (data df)) as [|c [|c' cs]]; [by apply elem_of_nil in Hf|eauto..].
Qed.

Lemma loc_raises df key e : loc df key = Raise e → e = KeyError key ∧ ¬ has_column df key.
Proof.
  unfold has_column, columns, loc. intros Hloc.
  destruct (filter _ (data df)) as [|c [|c' cs]] eqn:Hf; [|done..].
  split; [congruence|]. intros Hin.
  apply list_elem_of_fmap in Hin as (c & Hkey & Hin).
  assert (c ∈ filter (λ c : string * list float, c.1 = key) (data df)) as Hin'
    by (by apply list_elem_of_filter).
  rewrite Hf in Hin'. by apply elem_of_nil in Hin'.
Qed.

Lemma columns_getitem_0 df key :
  has_column df key → ∃ c0, columns_getitem df 0 = Ok c0 ∧ has_column df c0.
Proof.
  unfold has_column, columns_getitem. intros Hin.
  destruct (columns df) as [|c0 cs]; [by apply elem_of_nil in Hin|].
  exists c0. split; [done|]. by left.
Qed.

(** The calls of a plan that has no failing read. *)
Lemma draw_steps_valid observed modeled :
  tables_valid observed modeled →
  ∃ rv lo hi rp c0 y0,
    loc modeled "return value" = Ok rv ∧ loc modeled "lower ci" = Ok lo ∧
    loc modeled "upper ci" = Ok hi ∧ loc observed "return period" = Ok rp ∧
    columns_getitem observed 0 = Ok c0 ∧ loc observed c0 = Ok y0.
Proof.
  intros (Hrp & Hrv & Hlo & Hhi).
  destruct (loc_has_column _ _ Hrv) as [rv ?], (loc_has_column _ _ Hlo) as [lo ?],
    (loc_has_column _ _ Hhi) as [hi ?], (loc_has_column _ _ Hrp) as [rp ?].
  destruct (columns_getitem_0 _ _ Hrp) as (c0 & ? & Hc0).
  destruct (loc_has_column _ _ Hc0) as [y0 ?].
  by exists rv, lo, hi, rp, c0, y0.
Qed.

(** The ten calls of a complete draw sequence. *)
Lemma draw_steps_complete observed modeled cs :
  Ok <$> cs = draw_steps observed modeled →
  ∃ rv lo hi rp c0 y0,
    loc modeled "return value" = Ok rv ∧ loc modeled "lower ci" = Ok lo ∧
    loc modeled "upper ci" = Ok hi ∧ loc observed "return period" = Ok rp ∧
    columns_getitem observed 0 = Ok c0 ∧ loc observed c0 = Ok y0 ∧
    cs = [ Semilogx;
           Grid true "both";
           XaxisSetMajorFormatter (FormatStrFormatter "%.0f");
           Plot (index modeled) rv "#F85C50" 2 "-" 20;
           Plot (index modeled) lo "#5199FF" 1 "--" 15;
           Plot (index modeled) hi "#5199FF" 1 "--" 15;
           FillBetween (index modeled) lo hi "#5199FF" "None" 0.25 10;
           Scatter rp y0 "o" 20 1 "k" "w" 20;
           SetXlabel "Return period";
           SetYlabel c0 ].
Proof.
  unfold draw_steps, script. cbn [calls_of omap list_omap].
  intros Hcs.
  destruct cs as [|d1 [|d2 [|d3 [|d4 [|d5 [|d6 [|d7 [|d8 [|d9 [|d10 [|]]]]]]]]]]];
    try done.
  revert Hcs. cbn [fmap list_fmap].
  destruct (loc modeled "return value") as [rv|]; [|by intros [=]].
  destruct (loc modeled "lower ci") as [lo|]; [|by intros [=]].
  destruct (loc modeled "upper ci") as [hi|]; [|by intros [=]].
  destruct (loc observed "return period") as [rp|]; [|by intros [=]].
  destruct (columns_getitem observed 0) as [c0|]; [|by intros [=]].
  cbn [mbind outcome_bind mret outcome_ret].
  destruct (loc observed c0) as [y0|] eqn:Hy0; [|by intros [=]].
  intros [= -> -> -> -> -> -> -> -> -> ->].
  by exists rv, lo, hi, rp, c0, y0.
Qed.

(** ** What a call adds to its surface *)

Lemma history_drawn_on ax c s :
  history (drawn_on ax c s) ax = history s ax ++ [mkDrawn c (rcParams s)].
Proof. unfold history, drawn_on. cbn. by rewrite lookup_total_insert_eq. Qed.

Lemma history_issue ax cs s :
  history (issue ax cs s) ax =
  history s ax ++ ((λ c, mkDrawn c (rcParams s)) <$> cs).
Proof.
  revert s. induction cs as [|c cs IH]; intros s; [by rewrite app_nil_r|].
  rewrite issue_cons, IH, history_drawn_on. cbn. by rewrite <- app_assoc.
Qed.

Lemma axes_issue_other ax cs s a :
  a ≠ ax → axes (issue ax cs s) !! a = axes s !! a.
Proof.
  intros Hne. revert s. induction cs as [|c cs IH]; intros s; [done|].
  rewrite issue_cons, IH. cbn. by rewrite lookup_insert_ne.
Qed.

Lemma history_new_axes s : history s (new_axes s) = [].
Proof.
  unfold history, new_axes. rewrite lookup_total_alt.
  by rewrite (proj1 (not_elem_of_dom _ _) (is_fresh (dom (axes s)))).
Qed.

Lemma history_surface figsize s ax fig a s1 :
  surface_chosen raises figsize s ax fig a s1 → history s1 a = history s a.
Proof.
  intros [a'|Hsub]; [done|]. rewrite history_new_axes.
  unfold history, subplots_on. cbn. by rewrite lookup_total_insert_eq.
Qed.

Lemma rcParams_surface figsize s ax fig a s1 :
  surface_chosen raises figsize s ax fig a s1 → rcParams s1 = rcParams s.
Proof. by intros [a'|Hsub]. Qed.

(** The calls that a run left on its surface are the calls it executed,
    each under the styled rendering defaults. *)
Lemma added_surface figsize s0 ax fig a s1 cs :
  surface_chosen raises figsize (during s0) ax fig a s1 →
  added s0 (set_rcParams (rcParams s0) (issue a cs s1)) a =
  (λ c, mkDrawn c (styled pyextremes_rc (rcParams s0))) <$> cs.
Proof.
  intros Hsurf. unfold added.
  change (history (set_rcParams (rcParams s0) (issue a cs s1)) a)
    with (history (issue a cs s1) a).
  rewrite history_issue, (history_surface _ _ _ _ _ _ Hsurf).
  rewrite (rcParams_surface _ _ _ _ _ _ Hsurf).
  change (history (during s0) a) with (history s0 a).
  by rewrite drop_app_length.
Qed.

Lemma history_run figsize s0 ax fig a s1 cs :
  surface_chosen raises figsize (during s0) ax fig a s1 →
  history (set_rcParams (rcParams s0) (issue a cs s1)) a =
  history s0 a ++ ((λ c, mkDrawn c (styled pyextremes_rc (rcParams s0))) <$> cs).
Proof.
  intros Hsurf.
  change (history (set_rcParams (rcParams s0) (issue a cs s1)) a)
    with (history (issue a cs s1) a).
  rewrite history_issue, (history_surface _ _ _ _ _ _ Hsurf).
  by rewrite (rcParams_surface _ _ _ _ _ _ Hsurf).
Qed.

Lemma rc_valid_not_rejected (orig : gmap string rcval) key :
  rc_valid pyextremes_rc orig → key ∈ pyextremes_rc.*1 → orig !! key = None → False.
Proof.
  intros Hvalid Hin Hnone. apply list_elem_of_fmap in Hin as ([k v] & -> & Hin).
  eapply Forall_forall in Hvalid; [|done]. cbn in *. rewrite Hnone in Hvalid.
  by destruct Hvalid.
Qed.

(** A call with valid tables, on a matplotlib that accepts everything,
    runs to completion. *)
Lemma valid_call_completes o m ax figsize w :
  (∀ s c, raises s c = None) →
  rc_valid pyextremes_rc (rcParams (mpl w)) →
  tables_valid (frames w !!! o) (frames w !!! m) →
  ∃ fig a s1 cs,
    surface_chosen raises figsize (during (mpl w)) ax fig a s1 ∧
    Ok <$> cs = draw_steps (frames w !!! o) (frames w !!! m) ∧
    (plot_return_values raises o m ax figsize w).1 = Ok (fig, a) ∧
    mpl (plot_return_values raises o m ax figsize w).2 =
      set_rcParams (rcParams (mpl w)) (issue a cs s1) ∧
    frames (plot_return_values raises o m ax figsize w).2 = frames w.
Proof.
  intros Hlib Hrc Htab.
  destruct (plot_return_values_runs o m ax figsize w) as [Hrun Hfr].
  destruct (draw_steps_valid _ _ Htab) as (rv & lo & hi & rp & c0 & y0 & Hplan).
  destruct Hplan as (Hrv & Hlo & Hhi & Hrp & Hc0 & Hy0).
  inversion Hrun as [key Hin Hnone|e _ _ Hsub|fig a s1 k cs e _ Hsurf Hcs Hacc Hk Hstop
                    |fig a s1 cs _ Hsurf Hcs Hacc].
  - by destruct (rc_valid_not_rejected _ _ Hrc Hin Hnone).
  - by rewrite Hlib in Hsub.
  - exfalso. destruct Hstop as [Hread|(c & _ & Hc)]; [|by rewrite Hlib in Hc].
    revert Hread. unfold draw_steps, script. cbn [calls_of omap list_omap].
    rewrite Hrv, Hlo, Hhi, Hrp, Hc0. cbn [mbind outcome_bind mret outcome_ret].
    rewrite Hy0. cbn [mbind outcome_bind mret outcome_ret].
    do 10 (destruct k as [|k]; [done|]). done.
  - by exists fig, a, s1, cs.
Qed.

(** ** The first failing read *)

Lemma loc_missing df key : ¬ has_column df key → loc df key = Raise (KeyError key).
Proof.
  intros Hno. destruct (loc df key) as [sel|e] eqn:Hloc.
  - unfold has_column, columns, loc in *.
    destruct (filter _ (data df)) as [|c cs] eqn:Hf; [done|].
    assert (c ∈ filter (λ c : string * list float, c.1 = key) (data df)) as Hin
      by (rewrite Hf; by left).
    apply list_elem_of_filter in Hin as [Hkey Hin].
    destruct Hno. apply list_elem_of_fmap. by exists c.
  - by destruct (loc_raises _ _ _ Hloc) as [-> _].
Qed.

Lemma first_raise_stop plan k cs e :
  Ok <$> cs = take k plan → plan !! k = Some (Raise e) →
  first_raise plan = Some (k, e).
Proof.
  revert k cs. induction plan as [|[c|e'] plan IH]; intros k cs Hcs Hk; [done|..].
  - destruct k as [|k]; [done|]. destruct cs as [|c' cs]; [done|].
    injection Hcs as _ Hcs. cbn. by rewrite (IH k cs).
  - destruct k as [|k]; [by injection Hk as ->|]. by destruct cs.
Qed.

Lemma first_raise_none plan cs : Ok <$> cs = plan → first_raise plan = None.
Proof.
  intros <-. induction cs as [|c cs IH]; [done|]. cbn. by rewrite IH.
Qed.

Lemma first_missing_raise observed modeled k key :
  first_missing observed modeled = Some (k, key) →
  first_raise (draw_steps observed modeled) = Some (k, KeyError key).
Proof.
  unfold first_missing, draw_steps, script. cbn [calls_of omap list_omap].
  destruct (decide (has_column modeled "return value")) as [Hrv|Hrv];
    [apply loc_has_column in Hrv as [rv ->]
    |intros [= <- <-]; by rewrite (loc_missing _ _ Hrv)].
  destruct (decide (has_column modeled "lower ci")) as [Hlo|Hlo];
    [apply loc_has_column in Hlo as [lo ->]
    |intros [= <- <-]; by rewrite (loc_missing _ _ Hlo)].
  destruct (decide (has_column modeled "upper ci")) as [Hhi|Hhi];
    [apply loc_has_column in Hhi as [hi ->]
    |intros [= <- <-]; by rewrite (loc_missing _ _ Hhi)].
  destruct (decide (has_column observed "return period")) as [Hrp|Hrp]; [done|].
  intros [= <- <-]. by rewrite (loc_missing _ _ Hrp).
Qed.

Lemma first_missing_none observed modeled :
  first_missing observed modeled = None ↔ tables_valid observed modeled.
Proof.
  unfold first_missing, tables_valid. repeat case_decide; split; try done; tauto.
Qed.

Lemma first_missing_step observed modeled k key :
  first_missing observed modeled = Some (k, key) → (3 ≤ k)%nat ∧ (k < 10)%nat.
Proof.
  unfold first_missing. repeat case_decide; try done; intros [= <- <-]; lia.
Qed.

Lemma draw_steps_length observed modeled : length (draw_steps observed modeled) = 10.
Proof. reflexivity. Qed.

(** ** Figures and labels *)

Lemma figures_surface figsize s ax fig a s1 :
  surface_chosen raises figsize s ax fig a s1 →
  (ax = Some a ∧ fig = None ∧ figures s1 = figures s) ∨
  (ax = None ∧ fig = Some (new_figure s) ∧ a = new_axes s ∧
   figures s1 = <[new_figure s := mkFigure figsize 96 (new_axes s) (rcParams s)]> (figures s)).
Proof. intros [a'|Hsub]; [by left|by right]. Qed.

Lemma get_xlabel_from_app cur l1 l2 :
  get_xlabel_from cur (l1 ++ l2) = get_xlabel_from (get_xlabel_from cur l1) l2.
Proof. revert cur. induction l1 as [|d l1 IH]; intros cur; [done|]. cbn. by rewrite IH. Qed.

Lemma get_ylabel_from_app cur l1 l2 :
  get_ylabel_from cur (l1 ++ l2) = get_ylabel_from (get_ylabel_from cur l1) l2.
Proof. revert cur. induction l1 as [|d l1 IH]; intros cur; [done|]. cbn. by rewrite IH. Qed.

(** ** What a run adds, on any axes *)

Lemma history_run_other figsize s0 ax fig a s1 cs a' :
  surface_chosen raises figsize (during s0) ax fig a s1 →
  a' ≠ a →
  history (set_rcParams (rcParams s0) (issue a cs s1)) a' = history s0 a'.
Proof.
  intros Hsurf Hne. unfold history. rewrite !lookup_total_alt.
  cbn [set_rcParams axes]. rewrite axes_issue_other by done.
  inversion Hsurf; subst; [done|].
  cbn [subplots_on axes]. by rewrite lookup_insert_ne.
Qed.

Lemma added_same s a : added s s a = [].
Proof. unfold added. apply drop_all. Qed.

(** On every axes, what a run added is a prefix of the calls of the plan,
    executed under the styled rendering defaults. *)
Lemma run_added plan ax figsize s0 r s' a :
  plot_run raises plan ax figsize s0 r s' →
  ∃ k cs,
    Ok <$> cs = take k plan ∧
    added s0 s' a = (λ c, mkDrawn c (styled pyextremes_rc (rcParams s0))) <$> cs.
Proof.
  intros [key Hin Hnone|e _ _ Hsub|fig a0 s1 k cs e _ Hsurf Hcs Hacc Hk Hstop
         |fig a0 s1 cs _ Hsurf Hcs Hacc].
  - exists 0, []. by rewrite added_same.
  - exists 0, []. by rewrite added_same.
  - destruct (decide (a = a0)) as [->|Hne].
    + exists k, cs. split; [done|]. by eapply added_surface.
    + exists 0, []. split; [done|]. unfold added.
      rewrite (history_run_other _ _ _ _ _ _ cs _ Hsurf Hne). apply drop_all.
  - destruct (decide (a = a0)) as [->|Hne].
    + exists (length plan), cs. rewrite firstn_all. split; [done|].
      by eapply added_surface.
    + exists 0, []. split; [done|]. unfold added.
      rewrite (history_run_other _ _ _ _ _ _ cs _ Hsurf Hne). apply drop_all.
Qed.

Lemma run_figures plan ax figsize s0 r s' :
  plot_run raises plan ax figsize s0 r s' →
  figures s' = figures s0 ∨
  figures s' =
    <[new_figure s0 :=
        mkFigure figsize 96 (new_axes s0) (styled pyextremes_rc (rcParams s0))]>
      (figures s0).
Proof.
  intros [key Hin Hnone|e _ _ Hsub|fig a0 s1 k cs e _ Hsurf Hcs Hacc Hk Hstop
         |fig a0 s1 cs _ Hsurf Hcs Hacc]; [by left..| |];
    cbn [set_rcParams figures]; rewrite figures_issue;
    (destruct (figures_surface _ _ _ _ _ _ Hsurf) as [(_ & _ & ->)|(_ & _ & _ & ->)];
     [by left|by right]).
Qed.

(** ** The stacking order of the plan *)

Lemma plan_layer_zorder observed modeled c l :
  Ok c ∈ draw_steps observed modeled →
  layer_of c = Some l →
  zorder_of c = Some (layer_zorder l).
Proof.
  unfold draw_steps, script. cbn [calls_of omap list_omap].
  destruct (loc modeled "return value"), (loc modeled "lower ci"),
    (loc modeled "upper ci"), (loc observed "return period"),
    (columns_getitem observed 0) as [c0|];
    cbn [mbind outcome_bind mret outcome_ret];
    try destruct (loc observed c0);
    cbn [mbind outcome_bind mret outcome_ret];
    intros Hin;
    repeat (apply elem_of_cons in Hin as [Hin|Hin];
            [try discriminate Hin; injection Hin as ->; by intros [= <-]|]);
    by apply elem_of_nil in Hin.
Qed.

Lemma prefix_in_plan (plan : list (outcome call)) k cs c :
  Ok <$> cs = take k plan → c ∈ cs → Ok c ∈ plan.
Proof.
  intros Hcs Hc. apply (subseteq_take k). rewrite <- Hcs.
  by apply list_elem_of_fmap_2.
Qed.

Lemma plan_reads_after_config observed modeled k e :
  draw_steps observed modeled !! k = Some (Raise e) → (3 ≤ k)%nat.
Proof.
  unfold draw_steps, script. cbn [calls_of omap list_omap].
  do 3 (destruct k as [|k]; [done|]). lia.
Qed.

Lemma pyextremes_rc_names_differ : NoDup pyextremes_rc.*1.
Proof. refine (bool_decide_unpack _ _). vm_compute. exact I. Qed.

(** ** Computations that do not look at the data frames *)

Lemma blind_ret {A} (a : A) : blind (mret a).
Proof. by intros w1 w2 Heq. Qed.

Lemma blind_bind {A B} (c : M A) (k : A → M B) :
  blind c → (∀ a, blind (k a)) → blind (c ≫= k).
Proof.
  intros Hc Hk w1 w2 Heq. unfold mbind, M_bind.
  destruct (Hc w1 w2 Heq) as [Hr Hs].
  destruct (c w1) as [[a1|e1] w1'], (c w2) as [[a2|e2] w2']; cbn in Hr, Hs;
    try discriminate Hr.
  - injection Hr as ->. by apply Hk.
  - by injection Hr as ->.
Qed.

Lemma blind_lift {A} (r : outcome A) : blind (lift r).
Proof. by intros w1 w2 Heq. Qed.

Lemma blind_logger_info msg : blind (logger_info msg).
Proof. by intros w1 w2 Heq. Qed.

Lemma blind_rcParams_copy : blind rcParams_copy.
Proof. intros w1 w2 Heq. cbn. by rewrite Heq. Qed.

Lemma blind_rcParams_setitem key val : blind (rcParams_setitem key val).
Proof.
  intros w1 w2 Heq. unfold rcParams_setitem. rewrite Heq.
  destruct (rcParams (mpl w2) !! key); [|done]. cbn. by rewrite Heq.
Qed.

Lemma blind_rcParams_update rc : blind (rcParams_update rc).
Proof.
  induction rc as [|[key val] rc IH]; [apply blind_ret|].
  apply blind_bind; [apply blind_rcParams_setitem|done].
Qed.

Lemma blind_dict_update_rcParams orig : blind (dict_update_rcParams orig).
Proof. intros w1 w2 Heq. cbn. by rewrite Heq. Qed.

Lemma blind_try_finally {A} (body : M A) cleanup :
  blind body → blind cleanup → blind (try_finally body cleanup).
Proof.
  intros Hbody Hcleanup w1 w2 Heq. unfold try_finally.
  destruct (Hbody w1 w2 Heq) as [Hr Hs].
  destruct (body w1) as [r1 w1'], (body w2) as [r2 w2']. cbn in Hr, Hs. subst r2.
  destruct (Hcleanup w1' w2' Hs) as [Hr' Hs'].
  destruct (cleanup w1') as [[[]|e1] w1''], (cleanup w2') as [[[]|e2] w2''];
    cbn in Hr', Hs'; try discriminate Hr'; [done|].
  by injection Hr' as ->.
Qed.

Lemma blind_rc_context {A} rc (body : M A) : blind body → blind (rc_context rc body).
Proof.
  intros Hbody. apply blind_bind; [apply blind_rcParams_copy|]. intros orig.
  apply blind_try_finally; [|apply blind_dict_update_rcParams].
  apply blind_bind; [apply blind_rcParams_update|done].
Qed.

Lemma blind_ax_call ax c : blind (ax_call raises ax c).
Proof.
  intros w1 w2 Heq. unfold ax_call. rewrite Heq.
  destruct (raises (mpl w2) (AxesCall ax c)); [done|].
  unfold with_drawn. cbn. by rewrite Heq.
Qed.

Lemma blind_plt_subplots figsize dpi : blind (plt_subplots raises figsize dpi).
Proof.
  intros w1 w2 Heq. unfold plt_subplots. rewrite Heq.
  destruct (raises (mpl w2) (Subplots figsize dpi)); [done|].
  unfold with_subplots. cbn. by rewrite Heq.
Qed.

Lemma blind_choose_surface ax figsize : blind (choose_surface raises ax figsize).
Proof.
  destruct ax as [a|]; (apply blind_bind; [apply blind_logger_info|intros _]).
  - apply blind_ret.
  - apply blind_bind; [apply blind_plt_subplots|]. intros [fig a]. apply blind_ret.
Qed.

Lemma blind_run_script ax steps : blind (run_script raises ax steps).
Proof.
  induction steps as [|[msg|oc] steps IH]; [apply blind_ret|..].
  - apply blind_bind; [apply blind_logger_info|done].
  - apply blind_bind; [|done].
    apply blind_bind; [apply blind_lift|]. intros c. apply blind_ax_call.
Qed.

Lemma blind_plot_script ax figsize steps : blind (plot_script raises ax figsize steps).
Proof.
  apply blind_rc_context.
  apply blind_bind; [apply blind_choose_surface|]. intros [fig a].
  apply blind_bind; [apply blind_run_script|]. intros _. apply blind_ret.
Qed.

(** The call is the run of its script. *)
Lemma plot_return_values_as_script o m ax figsize w :
  plot_return_values raises o m ax figsize w =
  plot_script raises ax figsize (script (frames w !!! o) (frames w !!! m)) w.
Proof.
  rewrite plot_return_values_unfold. unfold plot_script. rewrite !rc_context_run.
  destruct (rcParams_update_spec pyextremes_rc w) as (cur & Hw1 & _).
  destruct (rcParams_update pyextremes_rc w) as [[[]|e] w1]; [|done].
  cbn [snd] in Hw1. subst w1.
  match goal with
  | |- (let '(_, _) := ?b1 in _) = (let '(_, _) := ?b2 in _) =>
      assert (b1 = b2) as ->; [|done]
  end.
  destruct ax as [a|]; unfold choose_surface.
  - rewrite !bind_bind, !bind_logger_info, !bind_ret. by rewrite draw_then_script.
  - rewrite !bind_bind, !bind_logger_info, !bind_bind, !bind_plt_subplots.
    destruct (raises _ _); [done|].
    rewrite !bind_ret. by rewrite draw_then_script.
Qed.

(** ** The parts of the tables that are read *)

Lemma script_views observed1 modeled1 observed2 modeled2 :
  observed_view observed1 = observed_view observed2 →
  modeled_view modeled1 = modeled_view modeled2 →
  script observed1 modeled1 = script observed2 modeled2.
Proof.
  unfold observed_view, modeled_view, script.
  intros [= Hrp Hc0 Hy0] [= Hidx Hrv Hlo Hhi].
  rewrite Hidx, Hrv, Hlo, Hhi, Hrp. rewrite Hc0 in Hy0 |- *.
  destruct (columns_getitem observed2 0) as [c0|]; [|done].
  cbn [mbind outcome_bind] in Hy0 |- *. by rewrite Hy0.
Qed.

Lemma filter_label_snoc (l : list (string * list float)) label values key :
  label ≠ key →
  filter (λ c : string * list float, c.1 = key) (l ++ [(label, values)]) =
  filter (λ c : string * list float, c.1 = key) l.
Proof.
  intros Hne. rewrite filter_app, filter_cons_False, filter_nil; [|done].
  apply app_nil_r.
Qed.

Lemma loc_with_column df label values key :
  label ≠ key → loc (with_column df label values) key = loc df key.
Proof. intros Hne. unfold loc, with_column. cbn. by rewrite filter_label_snoc. Qed.

(** A further column of the modeled table, under a label that is not one of
    the three that are read, does not change what is read. *)
Lemma modeled_view_with_column df label values :
  label ∉ ["return value"; "lower ci"; "upper ci"] →
  modeled_view (with_column df label values) = modeled_view df.
Proof.
  intros Hlabel. unfold modeled_view.
  rewrite !loc_with_column; [done|intros ->; apply Hlabel; set_solver..].
Qed.

(** A further column of an observed table that has a column already, under a
    label other than "return period" and than the label of the first column,
    does not change what is read. *)
Lemma observed_view_with_column df label values c0 :
  columns df !! 0 = Some c0 →
  label ≠ "return period" → label ≠ c0 →
  observed_view (with_column df label values) = observed_view df.
Proof.
  intros Hc0 Hrp Hne. unfold observed_view.
  assert (columns_getitem (with_column df label values) 0 = Ok c0) as ->.
  { unfold columns_getitem, columns, with_column in *. cbn.
    rewrite fmap_app, lookup_app_l; [by rewrite Hc0|by eapply lookup_lt_Some]. }
  assert (columns_getitem df 0 = Ok c0) as ->
    by (unfold columns_getitem; by rewrite Hc0).
  cbn [mbind outcome_bind]. by rewrite !loc_with_column.
Qed.

Lemma reinvoke_step n o m a figsize w r w1 rs w2 :
  plot_return_values raises o m (Some a) figsize w = (Ok r, w1) →
  reinvoke raises n o m a figsize w1 = (Ok rs, w2) →
  reinvoke raises (S n) o m a figsize w = (Ok (r :: rs), w2).
Proof.
  intros Hcall Hrest. cbn [reinvoke]. unfold mbind, M_bind.
  by rewrite Hcall, Hrest.
Qed.

End Facts.

(** * The claims *)

(** Case analysis on the run of a call: the outcome becomes [res], the
    world after the call [w'], and [Hrun] says which run it was. *)
Ltac run_cases raises o m ax figsize w :=
  let Hrun := fresh "Hrun" in
  let Hfr := fresh "Hfr" in
  let res := fresh "res" in
  let w' := fresh "w'" in
  let s' := fresh "s'" in
  let Hs' := fresh "Hs'" in
  destruct (plot_return_values_runs raises o m ax figsize w) as [Hrun Hfr];
  destruct (plot_return_values raises o m ax figsize w) as [res w'];
  cbn [fst snd] in *;
  remember (mpl w') as s' eqn:Hs';
  rename Hrun into Hrun; rename Hfr into Hfr; rename Hs' into Hs'.

Section Claims.

Variable raises : Mpl.state → libcall → option exn.

(** C1. For every valid pair of tables (on a matplotlib that accepts the
    style mapping and every call), [plot_return_values] returns a pair
    (figure, axes) whose figure is present exactly when no axes was passed
    in; and any number of calls in a row on one existing axes all return
    an absent figure, and create no figure. *)
Theorem returns_figure_iff_no_axes o m ax figsize w :
  (∀ s c, raises s c = None) →
  rc_valid pyextremes_rc (rcParams (mpl w)) →
  tables_valid (frames w !!! o) (frames w !!! m) →
  (∃ fig a, (plot_return_values raises o m ax figsize w).1 = Ok (fig, a) ∧
            (is_Some fig ↔ ax = None)) ∧
  (∀ n a, (reinvoke raises n o m a figsize w).1 = Ok (replicate n (None, a)) ∧
          figures (mpl (reinvoke raises n o m a figsize w).2) = figures (mpl w)).
Proof.
  intros Hlib Hrc Htab. split.
  - destruct (valid_call_completes raises o m ax figsize w Hlib Hrc Htab)
      as (fig & a & s1 & cs & Hsurf & _ & Hr & _).
    exists fig, a. split; [done|].
    destruct Hsurf; split; intros Hfig; try done; by destruct Hfig.
  - intros n a. revert w Hrc Htab.
    induction n as [|n IH]; intros w Hrc Htab; [done|].
    destruct (valid_call_completes raises o m (Some a) figsize w Hlib Hrc Htab)
      as (fig & a' & s1 & cs & Hsurf & _ & Hr & Hmpl & Hfr).
    inversion Hsurf; subst.
    destruct (plot_return_values raises o m (Some a') figsize w) as [r w1] eqn:Hcall.
    cbn [fst snd] in *. subst r.
    assert (rcParams (mpl w1) = rcParams (mpl w)) as Hrc1 by (by rewrite Hmpl).
    assert (figures (mpl w1) = figures (mpl w)) as Hfig1.
    { rewrite Hmpl. cbn [set_rcParams figures]. by rewrite figures_issue. }
    destruct (IH w1) as [Hrs Hfigs]; [by rewrite Hrc1|by rewrite Hfr|].
    destruct (reinvoke raises n o m a' figsize w1) as [rs w2] eqn:Hrest.
    cbn [fst snd] in *. subst rs.
    rewrite (reinvoke_step raises _ _ _ _ _ _ _ _ _ _ Hcall Hrest).
    split; [done|]. cbn [snd]. by rewrite Hfigs, Hfig1.
Qed.

(** C2 (as the code has it). When a required column is missing, a call
    without [ax] (on a matplotlib that accepts the style mapping and every
    call) fails with the KeyError of the first missing column, at the draw
    step that reads it, and not before: the calls of the steps before it, at
    least the three that configure the axes, have been executed on the new
    surface and stay there. *)
Theorem missing_column_fails_at_its_read o m figsize w :
  (∀ s c, raises s c = None) →
  rc_valid pyextremes_rc (rcParams (mpl w)) →
  ¬ tables_valid (frames w !!! o) (frames w !!! m) →
  ∃ k key cs,
    first_missing (frames w !!! o) (frames w !!! m) = Some (k, key) ∧
    (plot_return_values raises o m None figsize w).1 = Raise (KeyError key) ∧
    (3 ≤ k)%nat ∧ length cs = k ∧
    Ok <$> cs = take k (draw_steps (frames w !!! o) (frames w !!! m)) ∧
    history (mpl (plot_return_values raises o m None figsize w).2) (new_axes (mpl w)) =
      (λ c, mkDrawn c (styled pyextremes_rc (rcParams (mpl w)))) <$> cs.
Proof.
  intros Hlib Hrc Htab.
  destruct (first_missing (frames w !!! o) (frames w !!! m)) as [[k key]|] eqn:Hmiss;
    [|by apply first_missing_none in Hmiss].
  pose proof (first_missing_raise _ _ _ _ Hmiss) as Hfirst.
  destruct (first_missing_step _ _ _ _ Hmiss) as [Hk3 Hk10].
  run_cases raises o m (@None handle) figsize w.
  destruct Hrun as [key' Hin Hnone|e _ _ Hsub|fig a s1 k' cs e _ Hsurf Hcs Hacc Hk Hstop
                   |fig a s1 cs _ Hsurf Hcs Hacc]; rewrite <- ?Hs'.
  - by destruct (rc_valid_not_rejected _ _ Hrc Hin Hnone).
  - by rewrite Hlib in Hsub.
  - destruct Hstop as [Hread|(c & _ & Hc)]; [|by rewrite Hlib in Hc].
    rewrite (first_raise_stop _ _ _ _ Hcs Hread) in Hfirst.
    injection Hfirst as -> ->.
    exists k, key, cs. split; [done|]. split; [done|]. split; [done|].
    split; [|split; [done|]].
    + apply (f_equal length) in Hcs.
      rewrite length_fmap, length_take, draw_steps_length in Hcs. lia.
    + inversion Hsurf; subst.
      change (new_axes (mpl w)) with (new_axes (during (mpl w))).
      rewrite (history_run raises _ _ _ _ _ _ cs Hsurf).
      change (new_axes (during (mpl w))) with (new_axes (mpl w)).
      by rewrite history_new_axes.
  - by rewrite (first_raise_none _ _ Hcs) in Hfirst.
Qed.

(** C3 (as the code has it). Without [ax], the call creates the new figure
    at the size the caller gives and at 96 dots per inch, the same for every
    such call, exactly when matplotlib accepts the style mapping and the
    creation: then the figures after the call, whether it returns or raises
    while drawing, are the figures before it and the new one, and a call that
    returns returns the new figure and its axes.  Otherwise the call raises
    and no figure is created.  The default size is (8, 8/1.618): its height
    is the float 4.9443..., which is 4.944 rounded to three decimals and not
    4.944 itself. *)
Theorem new_figure_at_given_size o m figsize w :
  let r := plot_return_values raises o m None figsize w in
  let created :=
    <[new_figure (mpl w) :=
        mkFigure figsize 96 (new_axes (mpl w))
          (styled pyextremes_rc (rcParams (mpl w)))]> (figures (mpl w)) in
  figures (mpl w) !! new_figure (mpl w) = None ∧
  (figures (mpl r.2) = created ↔
   rc_valid pyextremes_rc (rcParams (mpl w)) ∧
   raises (during (mpl w)) (Subplots figsize 96) = None) ∧
  (figures (mpl r.2) = created ∨
   (figures (mpl r.2) = figures (mpl w) ∧ ∃ e, r.1 = Raise e)) ∧
  (∀ v, r.1 = Ok v →
     v = (Some (new_figure (mpl w)), new_axes (mpl w)) ∧
     figures (mpl r.2) = created) ∧
  plot_return_values_default_figsize raises o m None =
    plot_return_values raises o m None (NInt 8, NFloat (8 / 1.618)) ∧
  PrimFloat.leb 4.9435 (8 / 1.618) = true ∧
  PrimFloat.ltb (8 / 1.618) 4.9445 = true ∧
  PrimFloat.eqb (8 / 1.618) 4.944 = false.
Proof.
  cbn zeta.
  assert (figures (mpl w) !! new_figure (mpl w) = None) as Hnew.
  { apply not_elem_of_dom. unfold new_figure. apply is_fresh. }
  assert (∀ fig, figures (mpl w) ≠ <[new_figure (mpl w) := fig]> (figures (mpl w)))
    as Hdiffer.
  { intros fig Heq. apply (f_equal (λ figs, figs !! new_figure (mpl w))) in Heq.
    by rewrite lookup_insert_eq, Hnew in Heq. }
  split; [done|]. split; [|split; [|split; [|by repeat split]]];
    run_cases raises o m (@None handle) figsize w;
    destruct Hrun as [key' Hin Hnone|e Hvalid _ Hsub
                     |fig a s1 k' cs e Hvalid Hsurf Hcs Hacc Hk Hstop
                     |fig a s1 cs Hvalid Hsurf Hcs Hacc];
    try (inversion Hsurf as [|Hsub]; subst; cbn [set_rcParams figures];
         rewrite figures_issue; cbn [subplots_on figures during set_rcParams rcParams]).
  - split; [intros Heq; by destruct (Hdiffer _ Heq)|].
    intros [Hvalid _]. by destruct (rc_valid_not_rejected _ _ Hvalid Hin Hnone).
  - split; [intros Heq; by destruct (Hdiffer _ Heq)|].
    intros [_ Hacc]. by rewrite Hacc in Hsub.
  - done.
  - done.
  - right. split; [done|by eexists].
  - right. split; [done|by eexists].
  - by left.
  - by left.
  - done.
  - done.
  - done.
  - intros v [= <-]. done.
Qed.

(** C4. On every call that returns, whatever the first column of the
    observed table is named, the label of the vertical axis is that name,
    verbatim, and the label of the horizontal axis is "Return period". *)
Theorem ylabel_is_first_column_name o m ax figsize w fig a :
  (plot_return_values raises o m ax figsize w).1 = Ok (fig, a) →
  ∃ name,
    columns (frames w !!! o) !! 0 = Some name ∧
    get_ylabel (mpl (plot_return_values raises o m ax figsize w).2) a = Some name ∧
    get_xlabel (mpl (plot_return_values raises o m ax figsize w).2) a =
      Some "Return period".
Proof.
  run_cases raises o m ax figsize w. intros ->.
  inversion Hrun as [| | |fig' a' s1 cs _ Hsurf Hcs Hacc Hres Hmpl]. subst.
  destruct (draw_steps_complete _ _ _ Hcs)
    as (rv & lo & hi & rp & c0 & y0 & _ & _ & _ & _ & Hc0 & _ & ->).
  exists c0. split.
  { unfold columns_getitem in Hc0. by destruct (columns _ !! 0); simplify_eq. }
  unfold get_ylabel, get_xlabel.
  rewrite (history_run raises _ _ _ _ _ _ _ Hsurf).
  by rewrite get_ylabel_from_app, get_xlabel_from_app.
Qed.

(** C5. On every call that returns, the surface has received, after what it
    held before, exactly these calls in this order, each under the styled
    rendering defaults: logarithmic x scale; grid on, for major and minor
    ticks; the "%.0f" formatter on the x axis; the "return value" column
    against the index of the modeled table as a solid line of width 2; the
    "lower ci" and "upper ci" columns as dashed lines of width 1; the filled
    band between them at opacity 0.25; the observed points as "o" markers of
    size 20, black with a white edge; the x label; the y label. *)
Theorem draws_the_sequence_in_order o m ax figsize w fig a :
  (plot_return_values raises o m ax figsize w).1 = Ok (fig, a) →
  ∃ rv lo hi rp c0 y0,
    let modeled := frames w !!! m in
    let observed := frames w !!! o in
    loc modeled "return value" = Ok rv ∧
    loc modeled "lower ci" = Ok lo ∧
    loc modeled "upper ci" = Ok hi ∧
    loc observed "return period" = Ok rp ∧
    columns_getitem observed 0 = Ok c0 ∧
    loc observed c0 = Ok y0 ∧
    history (mpl (plot_return_values raises o m ax figsize w).2) a =
      history (mpl w) a ++
      ((λ c, mkDrawn c (styled pyextremes_rc (rcParams (mpl w)))) <$>
       [ Semilogx;
         Grid true "both";
         XaxisSetMajorFormatter (FormatStrFormatter "%.0f");
         Plot (index modeled) rv "#F85C50" 2 "-" 20;
         Plot (index modeled) lo "#5199FF" 1 "--" 15;
         Plot (index modeled) hi "#5199FF" 1 "--" 15;
         FillBetween (index modeled) lo hi "#5199FF" "None" 0.25 10;
         Scatter rp y0 "o" 20 1 "k" "w" 20;
         SetXlabel "Return period";
         SetYlabel c0 ]).
Proof.
  run_cases raises o m ax figsize w. intros ->.
  inversion Hrun as [| | |fig' a' s1 cs _ Hsurf Hcs Hacc Hres Hmpl]. subst.
  destruct (draw_steps_complete _ _ _ Hcs)
    as (rv & lo & hi & rp & c0 & y0 & Hrv & Hlo & Hhi & Hrp & Hc0 & Hy0 & ->).
  exists rv, lo, hi, rp, c0, y0. cbn zeta. repeat split; try done.
  by rewrite (history_run raises _ _ _ _ _ _ _ Hsurf).
Qed.

(** C6. Whatever a call draws, on any axes and whether it returns or
    raises, obeys the stacking order: the filled band lies strictly beneath
    the dashed bound curves, and these lie strictly beneath the solid
    central curve and the markers of the observed points (so the band lies
    beneath the top layer too).  On a call that returns, the layers drawn
    are, in draw order: the central curve, the two bounds, the band, the
    markers. *)
Theorem band_beneath_bounds_beneath_top o m ax figsize w a c1 c2 l1 l2 :
  let r := plot_return_values raises o m ax figsize w in
  c1 ∈ cmd <$> added (mpl w) (mpl r.2) a →
  c2 ∈ cmd <$> added (mpl w) (mpl r.2) a →
  layer_of c1 = Some l1 →
  layer_of c2 = Some l2 →
  (l1, l2) ∈ [(Band, Bounds); (Bounds, Top); (Band, Top)] →
  beneath c1 c2 ∧
  (∀ fig, r.1 = Ok (fig, a) →
     omap layer_of (cmd <$> added (mpl w) (mpl r.2) a) = [Top; Bounds; Bounds; Band; Top]).
Proof.
  cbn zeta. run_cases raises o m ax figsize w.
  intros Hc1 Hc2 Hl1 Hl2 Hlayers. split.
  - destruct (run_added raises _ _ _ _ _ _ a Hrun) as (k & cs & Hcs & Hadded).
    rewrite Hadded, <- list_fmap_compose, list_fmap_id in Hc1, Hc2.
    exists (layer_zorder l1), (layer_zorder l2).
    split; [by eapply plan_layer_zorder, Hl1; eapply prefix_in_plan|].
    split; [by eapply plan_layer_zorder, Hl2; eapply prefix_in_plan|].
    repeat (apply elem_of_cons in Hlayers as [[= -> ->]|Hlayers]; [done|]).
    by apply elem_of_nil in Hlayers.
  - intros fig ->. clear Hc1 Hc2.
    inversion Hrun as [| | |fig' a' s1 cs' _ Hsurf Hcs' Hacc Hres Hmpl]. subst.
    unfold added. rewrite (history_run raises _ _ _ _ _ _ _ Hsurf), drop_app_length.
    rewrite <- list_fmap_compose, list_fmap_id.
    by destruct (draw_steps_complete _ _ _ Hcs')
      as (rv & lo & hi & rp & c0 & y0 & _ & _ & _ & _ & _ & _ & ->).
Qed.

(** C7. On every call, whether it returns or raises, [rcParams] is at exit
    what it was at entry; and everything the call did in matplotlib (every
    call executed on an axes, the figure it created) ran under the rendering
    defaults overridden by the style mapping: each item of [pyextremes_rc]
    in force, every other default as before. *)
Theorem rendering_defaults_scoped o m ax figsize w :
  let r := plot_return_values raises o m ax figsize w in
  let overridden := styled pyextremes_rc (rcParams (mpl w)) in
  rcParams (mpl r.2) = rcParams (mpl w) ∧
  (∀ a d, d ∈ added (mpl w) (mpl r.2) a → style d = overridden) ∧
  (∀ f fig, figures (mpl w) !! f = None → figures (mpl r.2) !! f = Some fig →
            fig_style fig = overridden) ∧
  (∀ key val, (key, val) ∈ pyextremes_rc → overridden !! key = Some val) ∧
  (∀ key, key ∉ pyextremes_rc.*1 → overridden !! key = rcParams (mpl w) !! key).
Proof.
  cbn zeta. run_cases raises o m ax figsize w. repeat split.
  - by destruct Hrun.
  - intros a d.
    destruct (run_added raises _ _ _ _ _ _ a Hrun) as (k & cs & _ & ->).
    intros Hd. by apply list_elem_of_fmap in Hd as (c & -> & _).
  - intros f fig Hold.
    destruct (run_figures raises _ _ _ _ _ _ Hrun) as [->| ->]; [by rewrite Hold|].
    rewrite lookup_insert. case_decide; [|by rewrite Hold].
    intros Hfig. apply (f_equal (fmap fig_style)) in Hfig.
    cbn [fmap option_fmap option_map fig_style] in Hfig. congruence.
  - intros key val Hin. rewrite styled_lookup by apply pyextremes_rc_names_differ.
    by rewrite (elem_of_list_to_map_1 _ _ _ pyextremes_rc_names_differ Hin).
  - intros key Hkey. rewrite styled_lookup by apply pyextremes_rc_names_differ.
    by rewrite (not_elem_of_list_to_map_1 _ _ Hkey).
Qed.

(** C9. Every call either executes the whole draw sequence on its surface
    and returns the pair, or raises: before a surface exists, when
    matplotlib rejects the style mapping or the creation of the figure, and
    then nothing changed; or at the first draw step that fails, with the
    very exception of the failing table read (which happens at the step
    that uses the column, never up front) or of the failing axes call.  The
    calls of the steps before it were all executed and stay on the surface;
    no step is skipped, repeated or undone. *)
Theorem completes_or_stops_at_first_failure o m ax figsize w :
  let r := plot_return_values raises o m ax figsize w in
  let plan := draw_steps (frames w !!! o) (frames w !!! m) in
  let stamp := λ c, mkDrawn c (styled pyextremes_rc (rcParams (mpl w))) in
  (∃ fig a s1 cs,
     r.1 = Ok (fig, a) ∧
     surface_chosen raises figsize (during (mpl w)) ax fig a s1 ∧
     Ok <$> cs = plan ∧ accepted raises a cs s1 ∧
     history (mpl r.2) a = history (mpl w) a ++ (stamp <$> cs)) ∨
  (∃ e,
     r.1 = Raise e ∧ mpl r.2 = mpl w ∧
     ((∃ key, e = not_an_rc_parameter key ∧ rcParams (mpl w) !! key = None) ∨
      (ax = None ∧ raises (during (mpl w)) (Subplots figsize 96) = Some e))) ∨
  (∃ e fig a s1 k cs,
     r.1 = Raise e ∧
     surface_chosen raises figsize (during (mpl w)) ax fig a s1 ∧
     (k < length plan)%nat ∧
     Ok <$> cs = take k plan ∧ accepted raises a cs s1 ∧
     history (mpl r.2) a = history (mpl w) a ++ (stamp <$> cs) ∧
     ((plan !! k = Some (Raise e) ∧ (3 ≤ k)%nat) ∨
      (∃ c, plan !! k = Some (Ok c) ∧
            raises (issue a cs s1) (AxesCall a c) = Some e))).
Proof.
  cbn zeta. run_cases raises o m ax figsize w.
  destruct Hrun as [key Hin Hnone|e _ Hax Hsub|fig a s1 k cs e _ Hsurf Hcs Hacc Hk Hstop
                   |fig a s1 cs _ Hsurf Hcs Hacc].
  - right. left. eexists. split; [done|]. split; [done|]. left. by exists key.
  - right. left. exists e. split; [done|]. split; [done|]. by right.
  - right. right. exists e, fig, a, s1, k, cs.
    split; [done|]. split; [done|]. split; [done|]. split; [done|]. split; [done|].
    split; [by apply (history_run raises _ _ _ _ _ _ _ Hsurf)|].
    destruct Hstop as [Hread|Hcall]; [left|by right].
    split; [done|]. by eapply plan_reads_after_config.
  - left. exists fig, a, s1, cs. repeat split; try done.
    by apply (history_run raises _ _ _ _ _ _ _ Hsurf).
Qed.

(** C8. A call leaves every data frame as it was, whether it returns or
    raises; and what it leaves behind in matplotlib, like what it returns,
    does not depend on where the two tables are stored: the same tables at
    other addresses, in a world with the same library state, give the same
    outcome and the same library state, so nothing that identifies the table
    objects is kept. *)
Theorem tables_untouched o m ax figsize w :
  let r := plot_return_values raises o m ax figsize w in
  frames r.2 = frames w ∧
  ∀ o' m' w',
    mpl w' = mpl w →
    frames w' !!! o' = frames w !!! o →
    frames w' !!! m' = frames w !!! m →
    (plot_return_values raises o' m' ax figsize w').1 = r.1 ∧
    mpl (plot_return_values raises o' m' ax figsize w').2 = mpl r.2.
Proof.
  cbn zeta. split; [apply plot_return_values_runs|].
  intros o' m' w' Hmpl Ho Hm.
  rewrite !plot_return_values_as_script, Ho, Hm.
  by apply blind_plot_script.
Qed.

(** C10. The outcome of a call and the library state it leaves depend on
    the tables only through the index and the "return value", "lower ci"
    and "upper ci" columns of the modeled table, and the "return period"
    column and the first column (label and values) of the observed table:
    two calls from the same library state whose tables agree on these parts
    give the same outcome and the same library state. *)
Theorem depends_only_on_read_parts o1 m1 o2 m2 ax figsize w1 w2 :
  mpl w1 = mpl w2 →
  observed_view (frames w1 !!! o1) = observed_view (frames w2 !!! o2) →
  modeled_view (frames w1 !!! m1) = modeled_view (frames w2 !!! m2) →
  (plot_return_values raises o1 m1 ax figsize w1).1 =
    (plot_return_values raises o2 m2 ax figsize w2).1 ∧
  mpl (plot_return_values raises o1 m1 ax figsize w1).2 =
    mpl (plot_return_values raises o2 m2 ax figsize w2).2.
Proof.
  intros Hmpl Hobserved Hmodeled.
  rewrite !plot_return_values_as_script.
  rewrite (script_views _ _ _ _ Hobserved Hmodeled).
  by apply blind_plot_script.
Qed.

End Claims.

Lemma rc_stock_valid : rc_valid pyextremes_rc rc_stock.
Proof. unfold rc_valid. refine (bool_decide_unpack _ _). vm_compute. exact I. Defined.

Lemma sample_tables_valid : tables_valid observed_sample modeled_sample.
Proof. unfold tables_valid. refine (bool_decide_unpack _ _). vm_compute. exact I. Defined.

Lemma returns_figure_iff_no_axes_witness :
  (∃ fig a,
     (plot_return_values never_raises 0 1 None figsize_default world_sample).1 = Ok (fig, a) ∧
     (is_Some fig ↔ @None handle = None)) ∧
  (∀ n a,
     (reinvoke never_raises n 0 1 a figsize_default world_sample).1 =
       Ok (replicate n (None, a)) ∧
     figures (mpl (reinvoke never_raises n 0 1 a figsize_default world_sample).2) =
       figures (mpl world_sample)).
Proof.
  apply (returns_figure_iff_no_axes never_raises 0 1 None figsize_default world_sample).
  - reflexivity.
  - exact rc_stock_valid.
  - exact sample_tables_valid.
Defined.

Lemma missing_column_fails_at_its_read_witness :
  ∃ k key cs,
    first_missing (frames world_sample !!! 2) (frames world_sample !!! 1) = Some (k, key) ∧
    (plot_return_values never_raises 2 1 None figsize_default world_sample).1 =
      Raise (KeyError key) ∧
    (3 ≤ k)%nat ∧ length cs = k ∧
    Ok <$> cs = take k (draw_steps (frames world_sample !!! 2) (frames world_sample !!! 1)) ∧
    history (mpl (plot_return_values never_raises 2 1 None figsize_default world_sample).2)
      (new_axes (mpl world_sample)) =
      (λ c, mkDrawn c (styled pyextremes_rc (rcParams (mpl world_sample)))) <$> cs.
Proof.
  apply (missing_column_fails_at_its_read never_raises 2 1 figsize_default world_sample).
  - reflexivity.
  - exact rc_stock_valid.
  - unfold tables_valid. refine (bool_decide_unpack _ _). vm_compute. exact I.
Defined.

(** C2 as stated fails: with the observed table lacking "return period",
    the call raises only after the curves and the band were drawn on the
    surface it created. *)
Lemma missing_return_period_draws_first :
  ¬ has_column (frames world_sample !!! 2) "return period" ∧
  (plot_return_values never_raises 2 1 None figsize_default world_sample).1 =
    Raise (KeyError "return period") ∧
  cmd <$> history
            (mpl (plot_return_values never_raises 2 1 None figsize_default world_sample).2)
            (new_axes (mpl world_sample)) =
    [ Semilogx;
      Grid true "both";
      XaxisSetMajorFormatter (FormatStrFormatter "%.0f");
      Plot [1; 10; 100]%float (Series [1.0; 2.0; 3.0]%float) "#F85C50" 2 "-" 20;
      Plot [1; 10; 100]%float (Series [0.8; 1.8; 2.8]%float) "#5199FF" 1 "--" 15;
      Plot [1; 10; 100]%float (Series [1.2; 2.2; 3.2]%float) "#5199FF" 1 "--" 15;
      FillBetween [1; 10; 100]%float (Series [0.8; 1.8; 2.8]%float)
        (Series [1.2; 2.2; 3.2]%float) "#5199FF" "None" 0.25 10 ] ∧
  ¬ fails_before_drawing (mpl world_sample)
      (plot_return_values never_raises 2 1 None figsize_default world_sample).
Proof.
  split; [refine (bool_decide_unpack _ _); vm_compute; exact I|].
  split; [vm_compute; reflexivity|].
  split; [vm_compute; reflexivity|].
  intros [_ Hnone]. specialize (Hnone (new_axes (mpl world_sample))).
  assert (new_axes (mpl world_sample) ∉ dom (axes (mpl world_sample))) as Hnew
    by (unfold new_axes; apply is_fresh).
  apply Hnone in Hnew. apply (f_equal length) in Hnew.
  vm_compute in Hnew. discriminate.
Qed.

(** C3 as stated fails: the figure that a call without [figsize] creates is
    not 4.944 high. *)
Lemma default_height_is_not_4_944 :
  (plot_return_values_default_figsize never_raises 0 1 None world_sample).1 =
    Ok (Some 0, 0) ∧
  fig_figsize <$>
    figures (mpl (plot_return_values_default_figsize never_raises 0 1 None
                    world_sample).2) !! 0 =
    Some figsize_default ∧
  figsize_default ≠ (NInt 8, NFloat 4.944).
Proof.
  split; [vm_compute; reflexivity|]. split; [vm_compute; reflexivity|].
  intros Hsize.
  apply (f_equal (λ size : num * num,
                    match size.2 with
                    | NFloat h => PrimFloat.leb h 4.944
                    | NInt _ => true
                    end)) in Hsize.
  vm_compute in Hsize. discriminate.
Qed.

Lemma sample_call_returns :
  (plot_return_values never_raises 0 1 None figsize_default world_sample).1 =
    Ok (Some 0, 0).
Proof. vm_compute. reflexivity. Defined.

Lemma ylabel_is_first_column_name_witness :
  ∃ name,
    columns (frames world_sample !!! 0) !! 0 = Some name ∧
    get_ylabel
      (mpl (plot_return_values never_raises 0 1 None figsize_default world_sample).2) 0 =
      Some name ∧
    get_xlabel
      (mpl (plot_return_values never_raises 0 1 None figsize_default world_sample).2) 0 =
      Some "Return period".
Proof.
  apply (ylabel_is_first_column_name never_raises 0 1 None figsize_default world_sample
           (Some 0) 0).
  exact sample_call_returns.
Defined.

Lemma draws_the_sequence_in_order_witness :
  ∃ rv lo hi rp c0 y0,
    let modeled := frames world_sample !!! 1 in
    let observed := frames world_sample !!! 0 in
    loc modeled "return value" = Ok rv ∧
    loc modeled "lower ci" = Ok lo ∧
    loc modeled "upper ci" = Ok hi ∧
    loc observed "return period" = Ok rp ∧
    columns_getitem observed 0 = Ok c0 ∧
    loc observed c0 = Ok y0 ∧
    history
      (mpl (plot_return_values never_raises 0 1 None figsize_default world_sample).2) 0 =
      history (mpl world_sample) 0 ++
      ((λ c, mkDrawn c (styled pyextremes_rc (rcParams (mpl world_sample)))) <$>
       [ Semilogx;
         Grid true "both";
         XaxisSetMajorFormatter (FormatStrFormatter "%.0f");
         Plot (index modeled) rv "#F85C50" 2 "-" 20;
         Plot (index modeled) lo "#5199FF" 1 "--" 15;
         Plot (index modeled) hi "#5199FF" 1 "--" 15;
         FillBetween (index modeled) lo hi "#5199FF" "None" 0.25 10;
         Scatter rp y0 "o" 20 1 "k" "w" 20;
         SetXlabel "Return period";
         SetYlabel c0 ]).
Proof.
  apply (draws_the_sequence_in_order never_raises 0 1 None figsize_default world_sample
           (Some 0) 0).
  exact sample_call_returns.
Defined.

Lemma band_beneath_bounds_beneath_top_witness :
  let r := plot_return_values never_raises 0 1 None figsize_default world_sample in
  let band :=
    FillBetween [1; 10; 100]%float (Series [0.8; 1.8; 2.8]%float)
      (Series [1.2; 2.2; 3.2]%float) "#5199FF" "None" 0.25 10 in
  let bound :=
    Plot [1; 10; 100]%float (Series [0.8; 1.8; 2.8]%float) "#5199FF" 1 "--" 15 in
  beneath band bound ∧
  (∀ fig, r.1 = Ok (fig, 0) →
     omap layer_of (cmd <$> added (mpl world_sample) (mpl r.2) 0) =
       [Top; Bounds; Bounds; Band; Top]).
Proof.
  cbn zeta.
  apply (band_beneath_bounds_beneath_top never_raises 0 1 None figsize_default
           world_sample 0 _ _ Band Bounds).
  - vm_compute. do 6 right. left.
  - vm_compute. do 4 right. left.
  - reflexivity.
  - reflexivity.
  - left.
Defined.

Lemma depends_only_on_read_parts_witness :
  (plot_return_values never_raises 0 1 None figsize_default world_sample).1 =
    (plot_return_values never_raises 5 6 None figsize_default world_extra).1 ∧
  mpl (plot_return_values never_raises 0 1 None figsize_default world_sample).2 =
    mpl (plot_return_values never_raises 5 6 None figsize_default world_extra).2.
Proof.
  apply (depends_only_on_read_parts never_raises 0 1 5 6 None figsize_default
           world_sample world_extra).
  - reflexivity.
  - vm_compute. reflexivity.
  - vm_compute. reflexivity.
Defined.

(** ** The failing runs, on the sample inputs *)

(** A failing axes call stops the sequence: its exception reaches the
    caller, the call before it stays on the surface, and the figure that was
    created stays too. *)
Example raising_call_stops_the_sequence :
  let r := plot_return_values raises_on_grid 0 1 None figsize_default world_sample in
  r.1 = Raise (LibraryError "grid") ∧
  cmd <$> history (mpl r.2) 0 = [Semilogx] ∧
  fig_figsize <$> figures (mpl r.2) !! 0 = Some figsize_default ∧
  rcParams (mpl r.2) = rc_stock.
Proof. cbn zeta. repeat split; vm_compute; reflexivity. Qed.

(** A style mapping that matplotlib rejects fails the call before anything
    is drawn, on a passed-in surface too, and leaves the rendering defaults
    as they were. *)
Example rejected_style_changes_nothing :
  let r := plot_return_values never_raises 0 1 (Some 3) figsize_default
             world_old_matplotlib in
  r.1 = Raise (not_an_rc_parameter "font.family") ∧
  mpl r.2 = mpl world_old_matplotlib.
Proof. cbn zeta. split; vm_compute; reflexivity. Qed.

(** With every required column there, on an existing surface that already
    holds a call, the ten calls come after it and no figure is created. *)
Example draws_after_what_the_surface_held :
  let w := with_drawn 4 (SetYlabel "old label") world_sample in
  let r := plot_return_values never_raises 0 1 (Some 4) figsize_default w in
  r.1 = Ok (None, 4) ∧
  length (history (mpl r.2) 4) = 11 ∧
  get_ylabel (mpl r.2) 4 = Some "water level" ∧
  figures (mpl r.2) = ∅ ∧
  records r.2 =
    [ "plotting to existing axes"; "configuring axes"; "plotting return values";
      "plotting confidence intervals"; "plotting observed extreme values";
      "labeling axes" ].
Proof. cbn zeta. repeat split; vm_compute; reflexivity. Qed.

(** * Further properties of the plotter *)

Section Further.

Variable raises : Mpl.state → libcall → option exn.

(** ** What reaches the logger *)

Lemma run_script_records ax steps w :
  ∃ n,
    records (run_script raises ax steps w).2 = records w ++ take n (logs_of steps) ∧
    ((run_script raises ax steps w).1 = Ok () → n = length (logs_of steps)).
Proof.
  revert w. induction steps as [|[msg|[c|e]] steps IH]; intros w.
  - exists 0. by rewrite app_nil_r.
  - destruct (IH (logged msg w)) as (n & Hrec & Hn). exists (S n). split.
    + change (run_script raises ax (Log msg :: steps) w)
        with (run_script raises ax steps (logged msg w)).
      rewrite Hrec. cbn. by rewrite <- app_assoc.
    + intros Hok. cbn. f_equal. by apply Hn.
  - rewrite run_script_do_ok.
    destruct (raises (mpl w) (AxesCall ax c)) as [e|].
    + exists 0. by rewrite app_nil_r.
    + destruct (IH (with_drawn ax c w)) as (n & Hrec & Hn). by exists n.
  - exists 0. by rewrite app_nil_r.
Qed.

Lemma records_plot_script ax figsize steps w :
  logs_of steps = drop 1 (progress_messages ax) →
  ∃ n,
    records (plot_script raises ax figsize steps w).2 =
      records w ++ take n (progress_messages ax) ∧
    (∀ v, (plot_script raises ax figsize steps w).1 = Ok v → n = 6) ∧
    ((0 < n)%nat ↔ rc_valid pyextremes_rc (rcParams (mpl w))).
Proof.
  intros Hlogs. unfold plot_script. rewrite rc_context_run.
  destruct (rcParams_update_spec pyextremes_rc w) as (cur & Hw1 & _ & Hr1).
  destruct (rcParams_update pyextremes_rc w) as [[[]|e1] w1]; cbn [fst snd] in *; subst w1.
  - destruct Hr1 as [Hvalid _].
    set (msg0 := match ax with
                 | None => "creating new figure and axes"
                 | Some _ => "plotting to existing axes"
                 end).
    assert (∃ n,
      records ((choose_surface raises ax figsize ≫= λ '(fig, a),
                  run_script raises a steps ;; mret (fig, a))
                 (with_rcParams cur w)).2 = (records w ++ [msg0]) ++ take n (logs_of steps) ∧
      (∀ v, ((choose_surface raises ax figsize ≫= λ '(fig, a),
                  run_script raises a steps ;; mret (fig, a))
                 (with_rcParams cur w)).1 = Ok v → n = length (logs_of steps)))
      as (n & Hrec & Hn).
    { destruct ax as [a|]; unfold choose_surface.
      - rewrite bind_bind, bind_logger_info, bind_ret, run_script_then.
        destruct (run_script_records a steps
                    (logged "plotting to existing axes" (with_rcParams cur w)))
          as (n & Hrec & Hn).
        exists n. split; [done|]. cbn [fst snd]. intros v Hv. apply Hn.
        by destruct (run_script _ _ _ _).1 as [[]|].
      - rewrite bind_bind, bind_logger_info, bind_bind, bind_plt_subplots.
        destruct (raises _ _) as [e|].
        + exists 0. split; [by rewrite app_nil_r|done].
        + rewrite bind_ret, run_script_then.
          destruct (run_script_records (new_axes (mpl w)) steps
                      (with_subplots figsize 96
                         (logged "creating new figure and axes" (with_rcParams cur w))))
            as (n & Hrec & Hn).
          exists n. split; [done|]. cbn [fst snd]. intros v Hv. apply Hn.
          by destruct (run_script _ _ _ _).1 as [[]|]. }
    destruct ((choose_surface raises ax figsize ≫= _) (with_rcParams cur w)) as [r w2].
    cbn [fst snd] in *. exists (S n). split; [|split].
    + change (records (with_rcParams (rcParams (mpl w) ∪ rcParams (mpl w2)) w2))
        with (records w2).
      rewrite Hrec, Hlogs, <- app_assoc. by destruct ax.
    + intros v Hv. rewrite (Hn v Hv), Hlogs. by destruct ax.
    + split; [done|lia].
  - destruct Hr1 as (key & _ & Hin & Hnone). exists 0. split; [|split].
    + by rewrite app_nil_r.
    + done.
    + split; [lia|]. intros Hvalid.
      by destruct (rc_valid_not_rejected _ _ Hvalid Hin Hnone).
Qed.

(** X1. Every call appends to the logger, after the records it held, the
    first [n] of its six progress messages; all six when the call returns,
    and none exactly when matplotlib rejects the style mapping. *)
Theorem logs_progress_in_order o m ax figsize w :
  ∃ n,
    records (plot_return_values raises o m ax figsize w).2 =
      records w ++ take n (progress_messages ax) ∧
    (∀ v, (plot_return_values raises o m ax figsize w).1 = Ok v → n = 6) ∧
    ((0 < n)%nat ↔ rc_valid pyextremes_rc (rcParams (mpl w))).
Proof.
  rewrite plot_return_values_as_script. apply records_plot_script. by destruct ax.
Qed.

(** ** What a call leaves alone in matplotlib *)

(** X3. No call closes or changes a figure that exists, and a call that is
    passed an axes creates none.  A call without [ax], once matplotlib
    accepted the style mapping and the creation, leaves exactly one more
    figure, of the given size with the new axes, also when the call then
    raises while drawing: the figure is not closed on failure. *)
Theorem figures_are_never_closed o m ax figsize w :
  let r := plot_return_values raises o m ax figsize w in
  (∀ f fig, figures (mpl w) !! f = Some fig → figures (mpl r.2) !! f = Some fig) ∧
  (∀ a, ax = Some a → figures (mpl r.2) = figures (mpl w)) ∧
  (ax = None →
   rc_valid pyextremes_rc (rcParams (mpl w)) →
   raises (during (mpl w)) (Subplots figsize 96) = None →
   figures (mpl w) !! new_figure (mpl w) = None ∧
   figures (mpl r.2) =
     <[new_figure (mpl w) :=
         mkFigure figsize 96 (new_axes (mpl w))
           (styled pyextremes_rc (rcParams (mpl w)))]> (figures (mpl w))).
Proof.
  cbn zeta. run_cases raises o m ax figsize w.
  assert (figures (mpl w) !! new_figure (mpl w) = None) as Hnew.
  { apply not_elem_of_dom. unfold new_figure. apply is_fresh. }
  split; [|split].
  - intros f fig Hf.
    destruct (run_figures raises _ _ _ _ _ _ Hrun) as [->| ->]; [done|].
    rewrite lookup_insert_ne; [done|]. intros <-. by rewrite Hnew in Hf.
  - intros a ->.
    destruct Hrun as [key Hin Hnone|e _ Hax Hsub|fig a1 s1 k cs e _ Hsurf Hcs Hacc Hk Hstop
                     |fig a1 s1 cs _ Hsurf Hcs Hacc]; [done..| |];
      inversion Hsurf; subst; cbn [set_rcParams figures]; by rewrite figures_issue.
  - intros -> Hvalid Hsub. split; [done|].
    destruct Hrun as [key Hin Hnone|e _ Hax Hsub'|fig a1 s1 k cs e _ Hsurf Hcs Hacc Hk Hstop
                     |fig a1 s1 cs _ Hsurf Hcs Hacc].
    + by destruct (rc_valid_not_rejected _ _ Hvalid Hin Hnone).
    + by rewrite Hsub in Hsub'.
    + inversion Hsurf; subst. cbn [set_rcParams figures]. by rewrite figures_issue.
    + inversion Hsurf; subst. cbn [set_rcParams figures]. by rewrite figures_issue.
Qed.

(** X4. A call that was passed an axes and returns, returns that very axes
    and no figure, whatever the tables hold and whatever matplotlib did. *)
Theorem returns_the_axes_it_was_given o m a figsize w fig a' :
  (plot_return_values raises o m (Some a) figsize w).1 = Ok (fig, a') →
  fig = None ∧ a' = a.
Proof.
  run_cases raises o m (Some a) figsize w. intros ->.
  inversion Hrun as [| | |fig' a1 s1 cs _ Hsurf Hcs Hacc Hres Hmpl]. subst.
  by inversion Hsurf.
Qed.

(** ** The exceptions of a call *)

Lemma first_raise_valid observed modeled :
  tables_valid observed modeled → first_raise (draw_steps observed modeled) = None.
Proof.
  intros Htab.
  destruct (draw_steps_valid _ _ Htab)
    as (rv & lo & hi & rp & c0 & y0 & Hrv & Hlo & Hhi & Hrp & Hc0 & Hy0).
  unfold draw_steps, script. cbn [calls_of omap list_omap].
  rewrite Hrv, Hlo, Hhi, Hrp, Hc0. cbn [mbind outcome_bind mret outcome_ret].
  by rewrite Hy0.
Qed.

(** X5. The exception of a raising call has one of four origins, each
    tied to the run: matplotlib's KeyError, on entering the [with] block, for
    a name of the style mapping that it does not know; the exception that
    [plt.subplots] raised in the styled state, when no axes was passed; the
    exception that matplotlib raised for the call of step [k], in the state
    reached after the calls of the steps before it; or the KeyError of pandas
    for the first required column that is missing, at the step that reads
    it.  So the reads of the tables raise nothing else: in particular
    [observed.columns[0]] never raises its IndexError, because the lookup of
    "return period" comes first and fails on a table without columns. *)
Theorem exceptions_of_a_call o m ax figsize w e :
  (plot_return_values raises o m ax figsize w).1 = Raise e →
  let plan := draw_steps (frames w !!! o) (frames w !!! m) in
  (∃ key text, e = KeyError text ∧ key ∈ pyextremes_rc.*1 ∧
               rcParams (mpl w) !! key = None) ∨
  (ax = None ∧ rc_valid pyextremes_rc (rcParams (mpl w)) ∧
   raises (during (mpl w)) (Subplots figsize 96) = Some e) ∨
  (∃ fig a s1 k cs c,
     surface_chosen raises figsize (during (mpl w)) ax fig a s1 ∧
     Ok <$> cs = take k plan ∧ accepted raises a cs s1 ∧
     plan !! k = Some (Ok c) ∧
     raises (issue a cs s1) (AxesCall a c) = Some e) ∨
  (∃ fig a s1 k cs key,
     surface_chosen raises figsize (during (mpl w)) ax fig a s1 ∧
     Ok <$> cs = take k plan ∧ accepted raises a cs s1 ∧
     plan !! k = Some (Raise e) ∧
     first_missing (frames w !!! o) (frames w !!! m) = Some (k, key) ∧
     e = KeyError key).
Proof.
  cbn zeta. run_cases raises o m ax figsize w. intros ->.
  inversion Hrun as [key Hin Hnone|e' Hvalid Hax Hsub
                    |fig a s1 k cs e' Hvalid Hsurf Hcs Hacc Hk Hstop|];
    subst.
  - left. by exists key, (key +:+ " is not a valid rc parameter").
  - right. left. done.
  - destruct Hstop as [Hread|(c & Hc & Hraise)].
    + do 3 right. pose proof (first_raise_stop _ _ _ _ Hcs Hread) as Hfirst.
      destruct (first_missing (frames w !!! o) (frames w !!! m)) as [[k' key]|] eqn:Hmiss.
      * rewrite (first_missing_raise _ _ _ _ Hmiss) in Hfirst.
        injection Hfirst as <- <-. by exists fig, a, s1, k', cs, key.
      * apply first_missing_none in Hmiss.
        by rewrite (first_raise_valid _ _ Hmiss) in Hfirst.
    + do 2 right. left. by exists fig, a, s1, k, cs, c.
Qed.

(** ** Calls in a row on one axes *)

Lemma fmap_Ok_inj {A} (l1 l2 : list A) : Ok <$> l1 = Ok <$> l2 → l1 = l2.
Proof.
  revert l2. induction l1 as [|x l1 IH]; intros [|y l2]; try done.
  intros [= -> Hl]. f_equal. by apply IH.
Qed.

Lemma reinvoke_overlays observed modeled cs orig n o m a figsize w :
  (∀ s c, raises s c = None) →
  tables_valid observed modeled →
  Ok <$> cs = draw_steps observed modeled →
  rc_valid pyextremes_rc orig →
  rcParams (mpl w) = orig →
  frames w !!! o = observed →
  frames w !!! m = modeled →
  (reinvoke raises n o m a figsize w).1 = Ok (replicate n (None, a)) ∧
  history (mpl (reinvoke raises n o m a figsize w).2) a =
    history (mpl w) a ++
    ((λ c, mkDrawn c (styled pyextremes_rc orig)) <$> mjoin (replicate n cs)).
Proof.
  intros Hlib Htab Hcs Hvalid. revert w.
  induction n as [|n IH]; intros w Hrc Ho Hm; [by rewrite app_nil_r|].
  destruct (valid_call_completes raises o m (Some a) figsize w Hlib)
    as (fig & a' & s1 & cs' & Hsurf & Hcs' & Hr & Hmpl & Hfr);
    [by rewrite Hrc|by rewrite Ho, Hm|].
  rewrite Ho, Hm, <- Hcs in Hcs'. apply fmap_Ok_inj in Hcs' as ->.
  inversion Hsurf; subst a' fig s1.
  destruct (plot_return_values raises o m (Some a) figsize w) as [r w1] eqn:Hcall.
  cbn [fst snd] in *. subst r.
  assert (history (mpl w1) a =
          history (mpl w) a ++ ((λ c, mkDrawn c (styled pyextremes_rc orig)) <$> cs))
    as Hhist by (by rewrite Hmpl, (history_run raises _ _ _ _ _ _ _ Hsurf), Hrc).
  destruct (IH w1) as [Hrs Hrest];
    [by rewrite Hmpl, <- Hrc|by rewrite Hfr|by rewrite Hfr|].
  destruct (reinvoke raises n o m a figsize w1) as [rs w2] eqn:Hrest'.
  cbn [fst snd] in *. subst rs.
  rewrite (reinvoke_step raises _ _ _ _ _ _ _ _ _ _ Hcall Hrest'). split; [done|].
  cbn [snd]. rewrite Hrest, Hhist. cbn [replicate mjoin list_join].
  by rewrite fmap_app, app_assoc.
Qed.

(** X6. Calls in a row on one axes draw over each other: with valid
    tables, on a matplotlib that accepts everything, [n] calls leave on the
    axes, after what it held, the full draw sequence [n] times over; nothing
    is cleared or replaced between the calls. *)
Theorem repeated_calls_overlay n o m a figsize w :
  (∀ s c, raises s c = None) →
  rc_valid pyextremes_rc (rcParams (mpl w)) →
  tables_valid (frames w !!! o) (frames w !!! m) →
  ∃ cs,
    Ok <$> cs = draw_steps (frames w !!! o) (frames w !!! m) ∧
    history (mpl (reinvoke raises n o m a figsize w).2) a =
      history (mpl w) a ++
      ((λ c, mkDrawn c (styled pyextremes_rc (rcParams (mpl w)))) <$>
       mjoin (replicate n cs)).
Proof.
  intros Hlib Hvalid Htab.
  destruct (valid_call_completes raises o m (Some a) figsize w Hlib Hvalid Htab)
    as (_ & _ & _ & cs & _ & Hcs & _).
  exists cs. split; [done|].
  by eapply reinvoke_overlays.
Qed.

(** A call with a required column missing, on a matplotlib that accepts
    everything: it raises at the step of the first missing column, with the
    calls of the steps before it on the surface. *)
Lemma missing_column_run o m ax figsize w k key :
  (∀ s c, raises s c = None) →
  rc_valid pyextremes_rc (rcParams (mpl w)) →
  first_missing (frames w !!! o) (frames w !!! m) = Some (k, key) →
  ∃ fig a s1 cs,
    surface_chosen raises figsize (during (mpl w)) ax fig a s1 ∧
    Ok <$> cs = take k (draw_steps (frames w !!! o) (frames w !!! m)) ∧
    (plot_return_values raises o m ax figsize w).1 = Raise (KeyError key) ∧
    mpl (plot_return_values raises o m ax figsize w).2 =
      set_rcParams (rcParams (mpl w)) (issue a cs s1) ∧
    frames (plot_return_values raises o m ax figsize w).2 = frames w.
Proof.
  intros Hlib Hrc Hmiss.
  pose proof (first_missing_raise _ _ _ _ Hmiss) as Hfirst.
  destruct (plot_return_values_runs raises o m ax figsize w) as [Hrun Hfr].
  inversion Hrun as [key' Hin Hnone|e _ _ Hsub|fig a s1 k' cs e _ Hsurf Hcs Hacc Hk Hstop
                    |fig a s1 cs _ Hsurf Hcs Hacc].
  - by destruct (rc_valid_not_rejected _ _ Hrc Hin Hnone).
  - by rewrite Hlib in Hsub.
  - destruct Hstop as [Hread|(c & _ & Hc)]; [|by rewrite Hlib in Hc].
    rewrite (first_raise_stop _ _ _ _ Hcs Hread) in Hfirst.
    injection Hfirst as -> ->. by exists fig, a, s1, cs.
  - by rewrite (first_raise_none _ _ Hcs) in Hfirst.
Qed.

(** X7. A failed call is not undone by the next one: when a call on an
    axes raises for a missing column and the caller repeats it with a
    complete observed table, the second call returns, and the axes then
    holds what it held, the calls that the failed call had reached, and the
    full draw sequence after them. *)
Theorem retry_draws_over_the_failed_call o1 o2 m a figsize w k key :
  (∀ s c, raises s c = None) →
  rc_valid pyextremes_rc (rcParams (mpl w)) →
  first_missing (frames w !!! o1) (frames w !!! m) = Some (k, key) →
  tables_valid (frames w !!! o2) (frames w !!! m) →
  let w1 := (plot_return_values raises o1 m (Some a) figsize w).2 in
  let r2 := plot_return_values raises o2 m (Some a) figsize w1 in
  r2.1 = Ok (None, a) ∧
  ∃ cs1 cs2,
    length cs1 = k ∧
    Ok <$> cs1 = take k (draw_steps (frames w !!! o1) (frames w !!! m)) ∧
    Ok <$> cs2 = draw_steps (frames w !!! o2) (frames w !!! m) ∧
    history (mpl r2.2) a =
      history (mpl w) a ++
      ((λ c, mkDrawn c (styled pyextremes_rc (rcParams (mpl w)))) <$> (cs1 ++ cs2)).
Proof.
  intros Hlib Hrc Hmiss Htab. cbn zeta.
  destruct (missing_column_run o1 m (Some a) figsize w k key Hlib Hrc Hmiss)
    as (fig1 & a1 & s1 & cs1 & Hsurf1 & Hcs1 & _ & Hmpl1 & Hfr1).
  inversion Hsurf1; subst a1 fig1 s1.
  destruct (plot_return_values raises o1 m (Some a) figsize w) as [r1 w1].
  cbn [fst snd] in *.
  assert (rcParams (mpl w1) = rcParams (mpl w)) as Hrc1 by (by rewrite Hmpl1).
  destruct (valid_call_completes raises o2 m (Some a) figsize w1 Hlib)
    as (fig2 & a2 & s2 & cs2 & Hsurf2 & Hcs2 & Hr2 & Hmpl2 & _);
    [by rewrite Hrc1|by rewrite Hfr1|].
  inversion Hsurf2; subst a2 fig2 s2. split; [done|].
  exists cs1, cs2. rewrite Hfr1 in Hcs2.
  destruct (first_missing_step _ _ _ _ Hmiss) as [_ Hk].
  split; [|split; [done|split; [done|]]].
  - apply (f_equal length) in Hcs1.
    rewrite length_fmap, length_take, draw_steps_length in Hcs1. lia.
  - rewrite Hmpl2, (history_run raises _ _ _ _ _ _ _ Hsurf2), Hrc1.
    rewrite Hmpl1, (history_run raises _ _ _ _ _ _ _ Hsurf1).
    by rewrite fmap_app, app_assoc.
Qed.

(** ** The look of the chart and the caller's own defaults *)

Lemma styled_agree rc (orig1 orig2 : gmap string rcval) :
  NoDup rc.*1 →
  (∀ key, key ∉ rc.*1 → orig1 !! key = orig2 !! key) →
  styled rc orig1 = styled rc orig2.
Proof.
  intros Hnd Hagree. apply map_eq. intros key. rewrite !styled_lookup by done.
  destruct (list_to_map rc !! key) as [val|] eqn:Hkey; [done|].
  apply Hagree. by apply not_elem_of_list_to_map.
Qed.

Lemma blind_body ax figsize steps :
  blind ('(fig, a) ← choose_surface raises ax figsize;
         run_script raises a steps;;
         mret (fig, a)).
Proof.
  apply blind_bind; [apply blind_choose_surface|]. intros [fig a].
  apply blind_bind; [apply blind_run_script|]. intros _. apply blind_ret.
Qed.

Lemma plot_script_valid_run ax figsize steps w :
  rc_valid pyextremes_rc (rcParams (mpl w)) →
  plot_script raises ax figsize steps w =
  let '(r, w2) :=
    ('(fig, a) ← choose_surface raises ax figsize;
     run_script raises a steps;;
     mret (fig, a)) (with_rcParams (styled pyextremes_rc (rcParams (mpl w))) w) in
  (r, with_rcParams (rcParams (mpl w) ∪ rcParams (mpl w2)) w2).
Proof.
  intros Hvalid. unfold plot_script. rewrite rc_context_run.
  destruct (rcParams_update_spec pyextremes_rc w) as (cur & Hw1 & _ & Hr1).
  destruct (rcParams_update pyextremes_rc w) as [[[]|e1] w1]; cbn [fst snd] in *; subst w1.
  - by destruct Hr1 as [_ ->].
  - destruct Hr1 as (key & _ & Hin & Hnone).
    by destruct (rc_valid_not_rejected _ _ Hvalid Hin Hnone).
Qed.

(** X8. The chart does not depend on the values that the caller's own
    rendering defaults give to the options of the style mapping: from two
    worlds that differ only in those values, a call has the same outcome and
    leaves the same figures and the same axes (and each world keeps its own
    defaults). *)
Theorem chart_ignores_own_values_of_styled_options o m ax figsize w1 w2 :
  figures (mpl w1) = figures (mpl w2) →
  axes (mpl w1) = axes (mpl w2) →
  frames w1 !!! o = frames w2 !!! o →
  frames w1 !!! m = frames w2 !!! m →
  rc_valid pyextremes_rc (rcParams (mpl w1)) →
  rc_valid pyextremes_rc (rcParams (mpl w2)) →
  (∀ key, key ∉ pyextremes_rc.*1 →
     rcParams (mpl w1) !! key = rcParams (mpl w2) !! key) →
  let r1 := plot_return_values raises o m ax figsize w1 in
  let r2 := plot_return_values raises o m ax figsize w2 in
  r1.1 = r2.1 ∧
  figures (mpl r1.2) = figures (mpl r2.2) ∧
  axes (mpl r1.2) = axes (mpl r2.2) ∧
  rcParams (mpl r1.2) = rcParams (mpl w1) ∧
  rcParams (mpl r2.2) = rcParams (mpl w2).
Proof.
  intros Hfigs Haxes Ho Hm Hvalid1 Hvalid2 Hagree. cbn zeta.
  assert (rcParams (mpl (plot_return_values raises o m ax figsize w1).2) =
          rcParams (mpl w1)) as Hrc1.
  { destruct (plot_return_values_runs raises o m ax figsize w1) as [Hrun _].
    by destruct Hrun. }
  assert (rcParams (mpl (plot_return_values raises o m ax figsize w2).2) =
          rcParams (mpl w2)) as Hrc2.
  { destruct (plot_return_values_runs raises o m ax figsize w2) as [Hrun _].
    by destruct Hrun. }
  split; [|split; [|split; [|done]]]; revert Hrc1 Hrc2;
    rewrite !plot_return_values_as_script, Ho, Hm; intros _ _;
    rewrite !plot_script_valid_run by done;
    rewrite (styled_agree _ _ _ pyextremes_rc_names_differ Hagree);
    (destruct (blind_body ax figsize (script (frames w2 !!! o) (frames w2 !!! m))
                 (with_rcParams (styled pyextremes_rc (rcParams (mpl w2))) w1)
                 (with_rcParams (styled pyextremes_rc (rcParams (mpl w2))) w2))
       as [Hres Hstate];
     [rewrite !mpl_with_rcParams; unfold set_rcParams; by rewrite Hfigs, Haxes|]);
    destruct ((choose_surface raises ax figsize ≫= _) (with_rcParams _ w1)) as [r1 v1];
    destruct ((choose_surface raises ax figsize ≫= _) (with_rcParams _ w2)) as [r2 v2];
    cbn [fst snd] in *; [done|rewrite !mpl_with_rcParams; by rewrite Hstate..].
Qed.

(** ** The first column of the observed table *)

(** X9. The first column of the observed table is taken as the values
    whatever it is: when it is the "return period" column itself, a call
    that returns has drawn the return periods against themselves and
    labelled the vertical axis "return period". *)
Theorem first_column_may_be_the_return_periods o m ax figsize w fig a :
  columns (frames w !!! o) !! 0 = Some "return period" →
  (plot_return_values raises o m ax figsize w).1 = Ok (fig, a) →
  ∃ rp,
    loc (frames w !!! o) "return period" = Ok rp ∧
    Scatter rp rp "o" 20 1 "k" "w" 20 ∈
      cmd <$> history (mpl (plot_return_values raises o m ax figsize w).2) a ∧
    get_ylabel (mpl (plot_return_values raises o m ax figsize w).2) a =
      Some "return period".
Proof.
  intros Hfirst. run_cases raises o m ax figsize w. intros ->.
  inversion Hrun as [| | |fig' a' s1 cs _ Hsurf Hcs Hacc Hres Hmpl]. subst.
  destruct (draw_steps_complete _ _ _ Hcs)
    as (rv & lo & hi & rp & c0 & y0 & _ & _ & _ & Hrp & Hc0 & Hy0 & ->).
  unfold columns_getitem in Hc0. rewrite Hfirst in Hc0. injection Hc0 as <-.
  rewrite Hrp in Hy0. injection Hy0 as <-.
  exists rp. split; [done|]. unfold get_ylabel.
  rewrite (history_run raises _ _ _ _ _ _ _ Hsurf). split.
  - rewrite fmap_app. apply elem_of_app. right.
    rewrite <- list_fmap_compose, list_fmap_id. do 7 right. left.
  - by rewrite get_ylabel_from_app.
Qed.

End Further.

(** ** The further properties on the sample inputs *)

Lemma returns_the_axes_it_was_given_witness :
  (plot_return_values never_raises 0 1 (Some 4) figsize_default world_two_axes).1 =
    Ok (None, 4) ∧
  (@None handle = None ∧ 4 = 4).
Proof.
  split; [vm_compute; reflexivity|].
  apply (returns_the_axes_it_was_given never_raises 0 1 4 figsize_default world_two_axes
           None 4).
  vm_compute. reflexivity.
Defined.

Lemma exceptions_of_a_call_witness :
  let plan := draw_steps (frames world_sample !!! 2) (frames world_sample !!! 1) in
  let e := KeyError "return period" in
  (∃ key text, e = KeyError text ∧ key ∈ pyextremes_rc.*1 ∧
               rcParams (mpl world_sample) !! key = None) ∨
  (@None handle = None ∧ rc_valid pyextremes_rc (rcParams (mpl world_sample)) ∧
   never_raises (during (mpl world_sample)) (Subplots figsize_default 96) = Some e) ∨
  (∃ fig a s1 k cs c,
     surface_chosen never_raises figsize_default (during (mpl world_sample)) None fig a s1 ∧
     Ok <$> cs = take k plan ∧ accepted never_raises a cs s1 ∧
     plan !! k = Some (Ok c) ∧
     never_raises (issue a cs s1) (AxesCall a c) = Some e) ∨
  (∃ fig a s1 k cs key,
     surface_chosen never_raises figsize_default (during (mpl world_sample)) None fig a s1 ∧
     Ok <$> cs = take k plan ∧ accepted never_raises a cs s1 ∧
     plan !! k = Some (Raise e) ∧
     first_missing (frames world_sample !!! 2) (frames world_sample !!! 1) = Some (k, key) ∧
     e = KeyError key).
Proof.
  apply (exceptions_of_a_call never_raises 2 1 None figsize_default world_sample).
  vm_compute. reflexivity.
Defined.

Lemma repeated_calls_overlay_witness :
  ∃ cs,
    Ok <$> cs = draw_steps (frames world_two_axes !!! 0) (frames world_two_axes !!! 1) ∧
    history (mpl (reinvoke never_raises 3 0 1 3 figsize_default world_two_axes).2) 3 =
      history (mpl world_two_axes) 3 ++
      ((λ c, mkDrawn c (styled pyextremes_rc (rcParams (mpl world_two_axes)))) <$>
       mjoin (replicate 3 cs)).
Proof.
  apply (repeated_calls_overlay never_raises 3 0 1 3 figsize_default world_two_axes).
  - reflexivity.
  - exact rc_stock_valid.
  - exact sample_tables_valid.
Defined.

Lemma retry_draws_over_the_failed_call_witness :
  let w1 := (plot_return_values never_raises 2 1 (Some 3) figsize_default
               world_two_axes).2 in
  let r2 := plot_return_values never_raises 0 1 (Some 3) figsize_default w1 in
  r2.1 = Ok (None, 3) ∧
  ∃ cs1 cs2,
    length cs1 = 7 ∧
    Ok <$> cs1 =
      take 7 (draw_steps (frames world_two_axes !!! 2) (frames world_two_axes !!! 1)) ∧
    Ok <$> cs2 = draw_steps (frames world_two_axes !!! 0) (frames world_two_axes !!! 1) ∧
    history (mpl r2.2) 3 =
      history (mpl world_two_axes) 3 ++
      ((λ c, mkDrawn c (styled pyextremes_rc (rcParams (mpl world_two_axes)))) <$>
       (cs1 ++ cs2)).
Proof.
  apply (retry_draws_over_the_failed_call never_raises 2 0 1 3 figsize_default
           world_two_axes 7 "return period").
  - reflexivity.
  - exact rc_stock_valid.
  - vm_compute. reflexivity.
  - exact sample_tables_valid.
Defined.

Lemma own_options_valid : rc_valid pyextremes_rc (rcParams (mpl world_own_options)).
Proof. unfold rc_valid. refine (bool_decide_unpack _ _). vm_compute. exact I. Defined.

Lemma own_options_are_styled_options key :
  key ∉ pyextremes_rc.*1 →
  rcParams (mpl world_sample) !! key = rcParams (mpl world_own_options) !! key.
Proof.
  intros Hkey. cbn [world_own_options world_sample mpl rcParams].
  rewrite !lookup_insert_ne; [done|intros <-; apply Hkey..];
    refine (bool_decide_unpack _ _); vm_compute; exact I.
Defined.

Lemma chart_ignores_own_values_of_styled_options_witness :
  let r1 := plot_return_values never_raises 0 1 None figsize_default world_sample in
  let r2 := plot_return_values never_raises 0 1 None figsize_default world_own_options in
  r1.1 = r2.1 ∧
  figures (mpl r1.2) = figures (mpl r2.2) ∧
  axes (mpl r1.2) = axes (mpl r2.2) ∧
  rcParams (mpl r1.2) = rcParams (mpl world_sample) ∧
  rcParams (mpl r2.2) = rcParams (mpl world_own_options).
Proof.
  apply (chart_ignores_own_values_of_styled_options never_raises 0 1 None figsize_default
           world_sample world_own_options).
  - reflexivity.
  - reflexivity.
  - reflexivity.
  - reflexivity.
  - exact rc_stock_valid.
  - exact own_options_valid.
  - exact own_options_are_styled_options.
Defined.

Lemma first_column_may_be_the_return_periods_witness :
  ∃ rp,
    loc (frames world_periods_first !!! 0) "return period" = Ok rp ∧
    Scatter rp rp "o" 20 1 "k" "w" 20 ∈
      cmd <$> history
                (mpl (plot_return_values never_raises 0 1 None figsize_default
                        world_periods_first).2) 0 ∧
    get_ylabel
      (mpl (plot_return_values never_raises 0 1 None figsize_default
              world_periods_first).2) 0 =
      Some "return period".
Proof.
  apply (first_column_may_be_the_return_periods never_raises 0 1 None figsize_default
           world_periods_first (Some 0) 0).
  - vm_compute. reflexivity.
  - vm_compute. reflexivity.
Defined.
